(** * sd-builder: the gulpfile as a shallow embedding

    The repository is one file, [gulpfile.babel.js]: it registers build, lint,
    test and dev tasks with gulp and pro-gulp.  The embedding keeps the
    gulpfile's own code (constants, option records, task bodies, the order of
    the calls) and treats the tools it drives (the JSON and dotenv parsers,
    glob expansion, webpack's compilation, ESLint, mocha, the terminal's
    colour support) as a record of functions, [Tools].

    Effects are explicit: a computation of type [IO A] takes the file system,
    and returns a value or a thrown error, the new file system and the list
    of events it produced, oldest first. *)

From stdpp Require Import gmap strings list fin_maps pretty.
From Stdlib Require Import ZArith Ascii.

(** ** Paths *)

(** The proper ancestors of a path: each prefix that ends just before a
    ["/"], the root excluded. *)
Fixpoint prefixes_at_slash (pre s : string) : list string :=
  match s with
  | EmptyString => []
  | String c s' =>
      (if Ascii.eqb c "/" && negb (String.eqb pre "") then [pre] else [])
        ++ prefixes_at_slash (pre +:+ String c "") s'
  end.

Definition ancestors (path : string) : list string := prefixes_at_slash "" path.

(** [path.dirname], when the path has a parent other than the root. *)
Definition dirname (path : string) : option string := last (ancestors path).

(** ** The file system *)

Record FS := mkFS {
  files : gmap string string;   (* regular files: path to contents *)
  dirs : gset string            (* directories *)
}.

(** ** What the gulpfile hands to its tools *)

Inductive Plugin :=
| DedupePlugin
| CommonsChunkPlugin (chunk filename : string).

Record Loader := mkLoader {
  loader_test : string;             (* source of the regular expression *)
  loader_exclude : option string;
  loader_name : string
}.

Record WebpackConfig := mkWebpackConfig {
  entry_app : string;
  entry_vendor : list string;
  devtool : string;
  output_filename : string;
  module_loaders : list Loader;
  resolve_root : string;
  resolve_extensions : list string;
  plugins : list Plugin
}.

Record Compiler := mkCompiler { options : WebpackConfig }.

Inductive Middleware := history.

Record BrowserSyncOptions := mkBrowserSyncOptions {
  server_baseDir : string;
  server_middleware : list Middleware;
  bs_files : string;
  bs_port : Z;
  ghostMode : bool;
  injectChanges : bool;
  notify : bool;
  bs_open : bool;
  reloadDebounce : Z
}.

Record MochaOptions := mkMochaOptions {
  compilers : string;
  mocha_env : list (string * string)
}.

(** The callback given to [gulp.watch]: [proGulp.task(name)] or
    [proGulp.parallel(names)]. *)
Inductive TaskRef :=
| ProGulpTask (name : string)
| ProGulpParallel (names : list string).

(** The dependency manifest, deps.json, once parsed. *)
Record Deps := mkDeps {
  deps_js : list string;
  deps_css : list string;
  deps_fonts : list string
}.

(** A file travelling through a gulp stream. *)
Record Vinyl := mkVinyl { relative : string; contents : string }.

(** ESLint's two severities of a reported message. *)
Inductive Severity := Warning | Error.

Record LintMessage := mkLintMessage { severity : Severity; text : string }.

Record LintResult := mkLintResult {
  filePath : string;
  messages : list LintMessage
}.

(** ** Events *)

Inductive IOEvent :=
| EvRead (path : string)                    (* fs.readFileSync *)
| EvWrite (path : string)                   (* a file written *)
| EvMkdir (path : string)                   (* mkdirp *)
| EvConsole (line : string)                 (* console output *)
| EvGutilLog (line : string)                (* gp.util.log *)
| EvWebpackNew (c : WebpackConfig)          (* webpack(config) *)
| EvWebpackRun (c : WebpackConfig)          (* compiler.run *)
| EvBrowserSync (o : BrowserSyncOptions)    (* browserSync(options) *)
| EvWatch (globs : list string) (bound : TaskRef)   (* gulp.watch *)
| EvTaskStart (name : string)               (* a pro-gulp task is called *)
| EvTaskEnd (name : string)                 (* its promise is fulfilled *)
| EvTaskError (name msg : string).          (* its promise is rejected *)

(** ** The monad *)

Inductive Res (A : Type) :=
| Val (a : A)
| Throw (msg : string).
Arguments Val {A} a.
Arguments Throw {A} msg.

Definition IO (A : Type) : Type := FS -> Res A * FS * list IOEvent.

Definition io_ret {A} (a : A) : IO A := fun fs => (Val a, fs, []).

Definition io_throw {A} (msg : string) : IO A := fun fs => (Throw msg, fs, []).

Definition io_bind {A B} (c : IO A) (k : A -> IO B) : IO B := fun fs =>
  match c fs with
  | (Val a, fs1, t1) =>
      match k a fs1 with (r, fs2, t2) => (r, fs2, t1 ++ t2) end
  | (Throw m, fs1, t1) => (Throw m, fs1, t1)
  end.

(** [try { c } catch (error) { h error.message }] *)
Definition io_try {A} (c : IO A) (h : string -> IO A) : IO A := fun fs =>
  match c fs with
  | (Val a, fs1, t1) => (Val a, fs1, t1)
  | (Throw m, fs1, t1) =>
      match h m fs1 with (r, fs2, t2) => (r, fs2, t1 ++ t2) end
  end.

Definition io_emit (e : IOEvent) : IO unit := fun fs => (Val tt, fs, [e]).

Notation "'let!' x ':=' c 'in' k" := (io_bind c (fun x => k))
  (at level 10, x name, c at level 100, k at level 200).

(** Projections of a run. *)
Definition result {A} (r : Res A * FS * list IOEvent) : Res A := r.1.1.
Definition final {A} (r : Res A * FS * list IOEvent) : FS := r.1.2.
Definition events {A} (r : Res A * FS * list IOEvent) : list IOEvent := r.2.

(** ** Node's fs and mkdirp *)

Definition readFileSync (path : string) : IO string := fun fs =>
  match files fs !! path with
  | Some c => (Val c, fs, [EvRead path])
  | None =>
      (Throw ("ENOENT: no such file or directory, open '" +:+ path +:+ "'"),
       fs, [EvRead path])
  end.

Definition parent_exists (fs : FS) (path : string) : bool :=
  match dirname path with
  | Some d => bool_decide (d ∈ dirs fs)
  | None => true
  end.

Definition writeFileSync (path data : string) : IO unit := fun fs =>
  if bool_decide (path ∈ dirs fs) then
    (Throw ("EISDIR: illegal operation on a directory, open '" +:+ path +:+ "'"),
     fs, [])
  else if parent_exists fs path then
    (Val tt, mkFS (<[path := data]> (files fs)) (dirs fs), [EvWrite path])
  else
    (Throw ("ENOENT: no such file or directory, open '" +:+ path +:+ "'"),
     fs, []).

(** [mkdirp.sync]: creates the directory and every missing ancestor; fails
    when one of them exists as a regular file. *)
Definition mkdirp_sync (path : string) : IO unit := fun fs =>
  let ds := ancestors path ++ [path] in
  if existsb (fun d => bool_decide (is_Some (files fs !! d))) ds then
    (Throw ("EEXIST: file already exists, mkdir '" +:+ path +:+ "'"), fs, [])
  else
    (Val tt, mkFS (files fs) (dirs fs ∪ list_to_set ds), [EvMkdir path]).

(** Writing one file the way [gulp.dest] and webpack's emitter do: the
    parent directory is created first. *)
Definition write_out (path data : string) : IO unit :=
  let! _ := match dirname path with
            | Some d => mkdirp_sync d
            | None => io_ret tt
            end in
  writeFileSync path data.

(** ** Streams and promises

    A gulp stream ends with an ["end"] or an ["error"] event.  Listeners run
    in the order they were attached; one may emit an event on the same
    stream, which is dispatched at once, before the listeners that follow. *)

Inductive StreamEvent := SEnd | SError (msg : string).

Inductive Action :=
| Emit (e : StreamEvent)
| Resolve
| Reject (msg : string).

Definition Listener := StreamEvent -> list Action.

Definition on_end (h : list Action) : Listener := fun e =>
  match e with SEnd => h | SError _ => [] end.

Definition on_error (h : string -> list Action) : Listener := fun e =>
  match e with SError m => h m | SEnd => [] end.

(** A promise is settled once; later calls of resolve or reject are ignored. *)
Definition settle (p : option (Res unit)) (r : Res unit) : option (Res unit) :=
  match p with
  | None => Some r
  | Some _ => p
  end.

Fixpoint emit (depth : nat) (ls : list Listener) (e : StreamEvent)
    (p : option (Res unit)) : option (Res unit) :=
  match depth with
  | 0 => p
  | S d =>
      fold_left (fun p l =>
        fold_left (fun p a =>
          match a with
          | Emit e' => emit d ls e' p
          | Resolve => settle p (Val tt)
          | Reject m => settle p (Throw m)
          end) (l e) p) ls p
  end.

(** Nesting allowed to ["emit"] calls made from inside listeners. *)
Definition emit_depth : nat := 16.

(** Modelled from the spec: pro-gulp is a library, not part of the
    repository's source; section 4.3 has a leaf complete when its asynchronous
    action does, with success or with failure.  For a task that returns a
    stream the promise is resolved by the stream's ["end"] and rejected by
    its ["error"]; these two listeners are attached after the task's own. *)
Definition stream_promise (own : list Listener) (e : StreamEvent) : IO unit :=
  match emit emit_depth (own ++ [on_end [Resolve]; on_error (fun m => [Reject m])])
          e None with
  | Some (Val _) => io_ret tt
  | Some (Throw m) => io_throw m
  | None => io_throw "the stream never ended"
  end.

(** [bluebird.promisify] of a node-style function: the promise is rejected
    with the error given to the callback. *)
Definition promisify (f : IO unit) : IO unit := f.

(** ** pro-gulp's registry and groups *)

Abbreviation Task := (IO unit).

(** Modelled from the spec: pro-gulp (task, parallel, sequence) is not under
    src/.  Calling a registered task by name; the start, end and error
    events record the call in the trace. *)
Definition call (reg : gmap string Task) (name : string) : Task := fun fs =>
  match reg !! name with
  | None => (Throw ("UnknownTaskError: " +:+ name), fs, [])
  | Some t =>
      match t fs with
      | (Val _, fs1, tr) =>
          (Val tt, fs1, EvTaskStart name :: tr ++ [EvTaskEnd name])
      | (Throw m, fs1, tr) =>
          (Throw m, fs1, EvTaskStart name :: tr ++ [EvTaskError name m])
      end
  end.

(** Modelled from the spec: section 4.3, a sequential node runs its children
    one at a time and stops at the first failure. *)
Fixpoint sequence (reg : gmap string Task) (names : list string) : Task :=
  match names with
  | [] => io_ret tt
  | n :: rest => let! _ := call reg n in sequence reg rest
  end.

(** Every member of a parallel group runs, whether or not another failed.
    The members' asynchronous steps are not interleaved here: each member
    runs to completion in declaration order. *)
Fixpoint settle_all (reg : gmap string Task) (names : list string) (fs : FS)
    : list string * FS * list IOEvent :=
  match names with
  | [] => ([], fs, [])
  | n :: rest =>
      match call reg n fs with
      | (r, fs1, t1) =>
          match settle_all reg rest fs1 with
          | (errs, fs2, t2) =>
              (match r with Throw m => [m] | Val _ => [] end ++ errs,
               fs2, t1 ++ t2)
          end
      end
  end.

(** Modelled from the spec: section 4.3, a parallel node waits for all its
    children and then reports the failures, aggregated. *)
Definition parallel (reg : gmap string Task) (names : list string) : Task :=
  fun fs =>
    match settle_all reg names fs with
    | ([], fs1, t) => (Val tt, fs1, t)
    | (m :: errs, fs1, t) => (Throw (String.concat "; " (m :: errs)), fs1, t)
    end.

Definition run_ref (reg : gmap string Task) (r : TaskRef) : Task :=
  match r with
  | ProGulpTask name => call reg name
  | ProGulpParallel names => parallel reg names
  end.

(** ** The tools *)

Record Tools := mkTools {
  (* JSON.parse of the manifest; [inl] is the SyntaxError's message *)
  JSON_parse : string -> string + Deps;
  (* JSON.stringify(config, null, 4) *)
  JSON_stringify : list (string * string) -> string;
  (* dotenv.parse *)
  dotenv_parse : string -> string + list (string * string);
  (* the files a list of globs matches, each with its path relative to the
     glob's base *)
  glob : list string -> gmap string string -> list Vinyl;
  (* webpack's compilation: a fatal error, or what it emitted; for each
     asset of the configuration, its contents when the compilation produced
     it (a compilation with module errors is not fatal, and may leave some
     assets out) *)
  webpack_compile :
    WebpackConfig -> gmap string string -> string + (string -> option string);
  (* the messages ESLint reports for one file *)
  eslint : Vinyl -> list LintMessage;
  (* ESLint's formatter *)
  eslint_formatter : list LintResult -> string;
  (* gulp-spawn-mocha: [Some msg] when the runner fails *)
  mocha : MochaOptions -> list Vinyl -> option string;
  (* whether gulp-util's colours are enabled *)
  supportsColor : bool
}.

Record Process := mkProcess {
  cwd : string;
  env : gmap string string
}.

Definition io_of_sum {A} (r : string + A) : IO A :=
  match r with
  | inl m => io_throw m
  | inr a => io_ret a
  end.

(** ** The gulpfile *)

Section Gulpfile.
Context (T : Tools) (P : Process).

(** *** gulp's streams *)

Definition gulp_src (globs : list string) : IO (list Vinyl) := fun fs =>
  (Val (glob T globs (files fs)), fs, []).

(** [gp.rename(name)] with a string. *)
Definition rename (name : string) (f : Vinyl) : Vinyl :=
  mkVinyl name (contents f).

(** [gp.concat(name)]: one file, the contents joined by a newline; no file
    when none came in. *)
Definition concat (name : string) (fs : list Vinyl) : list Vinyl :=
  match fs with
  | [] => []
  | _ => [mkVinyl name (String.concat (String "010" "") (map contents fs))]
  end.

(** [gulp.dest(dir)]; every call site passes a directory ending in ["/"]. *)
Fixpoint gulp_dest (dir : string) (fs : list Vinyl) : IO unit :=
  match fs with
  | [] => io_ret tt
  | f :: rest =>
      let! _ := write_out (dir +:+ relative f) (contents f) in
      gulp_dest dir rest
  end.

(** *** gulp-util *)

Definition ESC : string := String "027" "".

Definition colors_blue (s : string) : string :=
  if supportsColor T then ESC +:+ "[34m" +:+ s +:+ ESC +:+ "[39m" else s.

Definition colors_green (s : string) : string :=
  if supportsColor T then ESC +:+ "[32m" +:+ s +:+ ESC +:+ "[39m" else s.

Definition gutil_log (line : string) : IO unit := io_emit (EvGutilLog line).

Definition console_log (line : string) : IO unit := io_emit (EvConsole line).

(** *** Constants *)

Definition NODE_ENV : string := default "development" (env P !! "NODE_ENV").
Definition testDir : string := cwd P +:+ "/test".
Definition appDir : string := cwd P +:+ "/app".
Definition buildDir : string := cwd P +:+ "/build".
Definition depsPath : string := cwd P +:+ "/deps.json".

Definition read_deps : IO Deps :=
  let! raw := readFileSync depsPath in
  io_of_sum (JSON_parse T raw).

(** *** Builders *)

Definition buildMainHtml : Task :=
  let! srcs := gulp_src [appDir +:+ "/main.html"] in
  gulp_dest (buildDir +:+ "/") (map (rename "index.html") srcs).

Definition webpackConfig (deps : Deps) : WebpackConfig := {|
  entry_app := appDir +:+ "/main.jsx";
  entry_vendor := deps_js deps;
  devtool := "source-map";
  output_filename := buildDir +:+ "/_assets/js/app.js";
  module_loaders := [
    mkLoader "\.jsx?$" (Some "node_modules") "babel";
    mkLoader "\.json$" None "json"
  ];
  resolve_root := appDir;
  resolve_extensions := [""; ".js"; ".json"; ".jsx"];
  plugins := [
    DedupePlugin;
    CommonsChunkPlugin "vendor" (buildDir +:+ "/_assets/js/vendor.js")
  ]
|}.

Definition webpack (c : WebpackConfig) : IO Compiler :=
  let! _ := io_emit (EvWebpackNew c) in
  io_ret (mkCompiler c).

(** The files a compiler writes: one per chunk, and with the
    ["source-map"] devtool a map next to each. *)
Definition chunk_files (c : WebpackConfig) : list string :=
  output_filename c ::
  flat_map (fun p => match p with
                     | CommonsChunkPlugin _ f => [f]
                     | DedupePlugin => []
                     end) (plugins c).

Definition emitted_assets (c : WebpackConfig) : list string :=
  chunk_files c ++
  (if String.eqb (devtool c) "source-map"
   then map (fun f => f +:+ ".map") (chunk_files c) else []).

Fixpoint emit_assets (names : list string) (content : string -> option string)
    : IO unit :=
  match names with
  | [] => io_ret tt
  | n :: rest =>
      let! _ := match content n with
                | Some data => write_out n data
                | None => io_ret tt
                end in
      emit_assets rest content
  end.

Definition compiler_run (c : Compiler) : IO unit :=
  let! _ := io_emit (EvWebpackRun (options c)) in
  fun fs =>
    match webpack_compile T (options c) (files fs) with
    | inl err => io_throw err fs
    | inr content => emit_assets (emitted_assets (options c)) content fs
    end.

(** The function expression that is called where the task is registered:
    it runs once, while the gulpfile loads, and its value is the task. *)
Definition buildAllScripts_iife : IO Task :=
  let! deps := read_deps in
  let! _ := mkdirp_sync (buildDir +:+ "/_assets/js") in
  let! compiler := webpack (webpackConfig deps) in
  io_ret (promisify (compiler_run compiler)).

Definition buildAppAssets : Task :=
  let! srcs := gulp_src [appDir +:+ "/assets/**/*"] in
  gulp_dest (buildDir +:+ "/_assets/") srcs.

(** The block guarded by [try] in [buildDevAppConfig]. *)
Definition buildDevAppConfig_try : IO unit :=
  let! env := readFileSync (cwd P +:+ "/.env") in
  let! config := io_of_sum (dotenv_parse T env) in
  let code := "window.APP_CONFIG = " +:+ JSON_stringify T config +:+ ";" in
  writeFileSync (buildDir +:+ "/app-config.js") code.

Definition buildDevAppConfig : Task :=
  if negb (String.eqb NODE_ENV "development") then
    (* Only build in development *)
    io_ret tt
  else
    io_try buildDevAppConfig_try
      (fun error_message =>
         let! _ := console_log "Error building app config" in
         console_log error_message).

Definition buildVendorStyles : Task :=
  let! deps := read_deps in
  let! srcs := gulp_src (deps_css deps) in
  gulp_dest (buildDir +:+ "/_assets/css/") (concat "vendor.css" srcs).

Definition buildVendorFonts : Task :=
  let! deps := read_deps in
  let! srcs := gulp_src (deps_fonts deps) in
  gulp_dest (buildDir +:+ "/_assets/fonts/") srcs.

(** *** Linter *)

Definition lint_srcs : list string := [
  appDir +:+ "/**/*.js";
  appDir +:+ "/**/*.jsx";
  "!" +:+ appDir +:+ "/assets/**/*";
  testDir +:+ "/**/*.js";
  testDir +:+ "/**/*.jsx"
].

Definition is_error (m : LintMessage) : bool :=
  match severity m with Error => true | Warning => false end.

Definition errorCount (results : list LintResult) : nat :=
  length (filter (fun m => is_error m = true) (flat_map messages results)).

Definition lint_results (srcs : list Vinyl) : list LintResult :=
  map (fun f => mkLintResult (relative f) (eslint T f)) srcs.

(** [gp.eslint.format()]: once every file has passed, the formatter's text
    is written, unless there is no result or the text is empty. *)
Definition eslint_format (results : list LintResult) : IO unit :=
  match results with
  | [] => io_ret tt
  | _ =>
      let report := eslint_formatter T results in
      if String.eqb report "" then io_ret tt else console_log report
  end.

(** [gp.eslint.failAfterError()]: once every file has passed, the stream
    fails when the results hold at least one message of severity error. *)
Definition eslint_failAfterError (results : list LintResult) : IO unit :=
  let n := errorCount results in
  if bool_decide (n = 0) then io_ret tt
  else io_throw ("Failed with " +:+ pretty n +:+
                 (if bool_decide (n = 1) then " error" else " errors")).

Definition lint : Task :=
  let! srcs := gulp_src lint_srcs in
  let results := lint_results srcs in
  let! _ := eslint_format results in
  eslint_failAfterError results.

(** *** Testers *)

Definition mochaOptions : MochaOptions := {|
  compilers := "jsx:babel-register";
  mocha_env := [("NODE_ENV", "test");
                ("NODE_PATH", appDir +:+ ":" +:+ testDir)]
|}.

Definition test : Task :=
  let! srcs := gulp_src [testDir +:+ "/**/*.js"; testDir +:+ "/**/*.jsx"] in
  let ended := match mocha T mochaOptions srcs with
               | None => SEnd
               | Some m => SError m
               end in
  stream_promise
    [on_error (fun _ =>
       (* Swallow errors *)
       [Emit SEnd])]
    ended.

(** *** Tasks to setup the development environment *)

Definition browserSyncOptions : BrowserSyncOptions := {|
  server_baseDir := buildDir;
  server_middleware := [history];
  bs_files := buildDir +:+ "/**/*";
  bs_port := 8080;
  ghostMode := false;
  injectChanges := false;
  notify := false;
  bs_open := false;
  reloadDebounce := 1000
|}.

Definition setupDevServer : Task := io_emit (EvBrowserSync browserSyncOptions).

Definition watch_bindings : list (list string * TaskRef) := [
  ([appDir +:+ "/main.html"], ProGulpTask "buildMainHtml");
  ([appDir +:+ "/.env"], ProGulpTask "buildDevAppConfig");
  ([appDir +:+ "/**/*.jsx"; appDir +:+ "/**/*.js"],
     ProGulpParallel ["buildAllScripts"; "test"]);
  ([appDir +:+ "/assets/**/*"], ProGulpTask "buildAppAssets");
  ([testDir +:+ "/**/*.jsx"; testDir +:+ "/**/*.js"], ProGulpTask "test");
  ([depsPath],
     ProGulpParallel ["buildAllScripts"; "buildVendorFonts";
                      "buildVendorStyles"; "test"])
].

Fixpoint gulp_watch_all (bs : list (list string * TaskRef)) : IO unit :=
  match bs with
  | [] => io_ret tt
  | (globs, bound) :: rest =>
      let! _ := io_emit (EvWatch globs bound) in
      gulp_watch_all rest
  end.

Definition setupWatchers : Task := gulp_watch_all watch_bindings.

(** *** Default task *)

Definition usage : list string := [
  "";
  "Usage: " +:+ colors_blue "sd-builder [TASK]";
  "";
  "Available tasks:";
  "  " +:+ colors_green "build" +:+ "    build the project";
  "  " +:+ colors_green "dev" +:+ "      set up dev environment with auto-recompiling";
  "  " +:+ colors_green "lint" +:+ "     lints application source code";
  "  " +:+ colors_green "test" +:+ "     runs tests";
  ""
].

Fixpoint gutil_log_all (ls : list string) : IO unit :=
  match ls with
  | [] => io_ret tt
  | l :: rest => let! _ := gutil_log l in gutil_log_all rest
  end.

Definition gulp_default : Task := gutil_log_all usage.

(** *** The registries

    pro-gulp's registry fills from the top of the file to its bottom, and a
    group names only tasks registered above it. *)
Section Registered.
(** The value of the function expression of [buildAllScripts]. *)
Variable buildAllScripts : Task.

Definition proGulp_leaves : gmap string Task :=
  <["buildVendorFonts" := buildVendorFonts]>
  (<["buildVendorStyles" := buildVendorStyles]>
  (<["buildDevAppConfig" := buildDevAppConfig]>
  (<["buildAppAssets" := buildAppAssets]>
  (<["buildAllScripts" := buildAllScripts]>
  (<["buildMainHtml" := buildMainHtml]> ∅))))).

Definition build : Task :=
  parallel proGulp_leaves [
    "buildMainHtml";
    "buildAllScripts";
    "buildAppAssets";
    "buildDevAppConfig";
    "buildVendorStyles";
    "buildVendorFonts"
  ].

Definition proGulp_tasks : gmap string Task :=
  <["setupWatchers" := setupWatchers]>
  (<["setupDevServer" := setupDevServer]>
  (<["test" := test]>
  (<["build" := build]> proGulp_leaves))).

Definition dev : Task :=
  sequence proGulp_tasks [
    "build";
    "test";
    "setupDevServer";
    "setupWatchers"
  ].

Definition gulp_tasks : gmap string Task :=
  <["default" := gulp_default]>
  (<["dev" := dev]>
  (<["test" := call proGulp_tasks "test"]>
  (<["lint" := lint]>
  (<["build" := call proGulp_tasks "build"]> ∅)))).
End Registered.

(** Loading the gulpfile: the module's top-level code, whose value is
    gulp's registry. *)
Definition gulpfile : IO (gmap string Task) :=
  let! buildAllScripts := buildAllScripts_iife in
  io_ret (gulp_tasks buildAllScripts).

(** Modelled from the spec: gulp's command line is not under src/; by
    section 7 a failing invocation exits with a non-zero status and prints
    the failing task name and the underlying message.  The gulpfile is
    loaded, the named task is run and reported, and the exit status is 1
    when the gulpfile or the task failed. *)
Definition gulp_cli (task : string) (fs : FS) : Z * FS * list IOEvent :=
  match gulpfile fs with
  | (Throw m, fs1, t1) => (1%Z, fs1, t1 ++ [EvConsole m])
  | (Val reg, fs1, t1) =>
      match reg !! task with
      | None =>
          (1%Z, fs1,
           t1 ++ [EvGutilLog ("Task '" +:+ task +:+ "' is not in your gulpfile")])
      | Some fn =>
          match fn fs1 with
          | (Val _, fs2, t2) =>
              (0%Z, fs2,
               t1 ++ [EvGutilLog ("Starting '" +:+ task +:+ "'...")] ++ t2
                  ++ [EvGutilLog ("Finished '" +:+ task +:+ "'")])
          | (Throw m, fs2, t2) =>
              (1%Z, fs2,
               t1 ++ [EvGutilLog ("Starting '" +:+ task +:+ "'...")] ++ t2
                  ++ [EvGutilLog ("'" +:+ task +:+ "' errored");
                      EvGutilLog m])
          end
      end
  end.

End Gulpfile.

(** ** A sample project

    Simple, executable stand-ins for the tools and a small project tree, on
    which the tasks can be run. *)

Module Sample.

Definition dq : string := String "034" "".
Definition nl : string := String "010" "".
Definition quoted (s : string) : string := dq +:+ s +:+ dq.

Definition is_suffix (s p : string) : bool :=
  String.prefix (String.rev s) (String.rev p).

Definition drop_prefix (n : nat) (s : string) : string :=
  String.substring n (String.length s - n) s.

(** The part of a path after its last ["/"]. *)
Fixpoint basename_go (cur s : string) : string :=
  match s with
  | EmptyString => cur
  | String c s' =>
      if Ascii.eqb c "/" then basename_go "" s'
      else basename_go (cur +:+ String c "") s'
  end.

Definition basename (path : string) : string := basename_go "" path.

(** One positive pattern against one path: [base/**/*tail] matches the
    paths below [base] that end in [tail]; a pattern without a star only
    itself. *)
Definition match_one (pattern path : string) : option string :=
  match String.index 0 "/**/*" pattern with
  | Some i =>
      let base := String.substring 0 (i + 1) pattern in
      let tail := drop_prefix (i + 5) pattern in
      if String.prefix base path && is_suffix tail path
         && (String.length base <? String.length path)%nat
      then Some (drop_prefix (String.length base) path) else None
  | None =>
      if String.eqb pattern path then Some (basename path) else None
  end.

Definition is_negation (pattern : string) : bool := String.prefix "!" pattern.

Definition first_match (patterns : list string) (path : string)
    : option string :=
  list_find (fun r : option string => is_Some r)
    (map (fun g => match_one g path) patterns) ≫= snd.

Definition glob (globs : list string) (tree : gmap string string)
    : list Vinyl :=
  let positive := filter (fun g => is_negation g = false) globs in
  let negative :=
    map (drop_prefix 1) (filter (fun g => is_negation g = true) globs) in
  omap (fun kv : string * string =>
          match first_match negative kv.1 with
          | Some _ => None
          | None => (fun r => mkVinyl r kv.2) <$> first_match positive kv.1
          end) (map_to_list tree).

Definition react : string := "/proj/node_modules/react/dist/react.js".
Definition bootstrap_css : string := "/proj/node_modules/bootstrap/dist/css/bootstrap.css".
Definition glyphs : string := "/proj/node_modules/bootstrap/dist/fonts/glyphs.woff".

Definition manifest : string :=
  "{" +:+ quoted "js" +:+ ": [" +:+ quoted react +:+ "], "
      +:+ quoted "css" +:+ ": [" +:+ quoted bootstrap_css +:+ "], "
      +:+ quoted "fonts" +:+ ": [" +:+ quoted glyphs +:+ "]}".

Definition manifest_no_vendor : string :=
  "{" +:+ quoted "js" +:+ ": [], " +:+ quoted "css" +:+ ": [], "
      +:+ quoted "fonts" +:+ ": []}".

(** Knows the two manifests above. *)
Definition JSON_parse (raw : string) : string + Deps :=
  if String.eqb raw manifest then inr (mkDeps [react] [bootstrap_css] [glyphs])
  else if String.eqb raw manifest_no_vendor then inr (mkDeps [] [] [])
  else inl "SyntaxError: Unexpected token in JSON".

Definition JSON_stringify (config : list (string * string)) : string :=
  "{" +:+ nl +:+
  String.concat ("," +:+ nl)
    (map (fun kv : string * string =>
            "    " +:+ quoted kv.1 +:+ ": " +:+ quoted kv.2) config)
  +:+ nl +:+ "}".

Fixpoint lines_go (cur s : string) : list string :=
  match s with
  | EmptyString => [cur]
  | String c s' =>
      if Ascii.eqb c "010" then cur :: lines_go "" s'
      else lines_go (cur +:+ String c "") s'
  end.

(** KEY=VALUE lines; a line without ["="] is skipped. *)
Definition dotenv_parse (src : string) : string + list (string * string) :=
  inr (omap (fun line =>
               (fun i => (String.substring 0 i line, drop_prefix (i + 1) line))
                 <$> String.index 0 "=" line)
            (lines_go "" src)).

(** All the assets when the entry module is there; without it only the
    vendor bundle and its map. *)
Definition webpack_compile (c : WebpackConfig) (tree : gmap string string)
    : string + (string -> option string) :=
  inr (fun asset =>
         match tree !! entry_app c with
         | Some main => Some ("/* " +:+ basename asset +:+ " */ " +:+ main)
         | None =>
             if String.prefix "vendor" (basename asset)
             then Some ("/* " +:+ basename asset +:+ " */")
             else None
         end).

Definition eslint (f : Vinyl) : list LintMessage :=
  if String.prefix "debugger" (contents f)
  then [mkLintMessage Error "Unexpected 'debugger' statement"]
  else if String.prefix "console" (contents f)
  then [mkLintMessage Warning "Unexpected console statement"]
  else [].

Definition eslint_formatter (results : list LintResult) : string :=
  String.concat ""
    (flat_map (fun r => map (fun m => filePath r +:+ ": " +:+ text m +:+ nl)
                            (messages r)) results).

Definition mocha (_ : MochaOptions) (srcs : list Vinyl) : option string :=
  if existsb (fun f => String.prefix "assert(false)" (contents f)) srcs
  then Some "Mocha exited with code 1" else None.

Definition tools : Tools :=
  mkTools JSON_parse JSON_stringify dotenv_parse glob webpack_compile
          eslint eslint_formatter mocha true.

Definition proc : Process := mkProcess "/proj" ∅.

Definition production : Process :=
  mkProcess "/proj" (<["NODE_ENV" := "production"]> ∅).

(** A project with an application, a manifest and an environment file. *)
Definition tree : gmap string string :=
  <["/proj/deps.json" := manifest]>
  (<["/proj/.env" := "API_URL=http://localhost:3000"]>
  (<["/proj/app/main.html" := "<html></html>"]>
  (<["/proj/app/main.jsx" := "render();"]>
  (<["/proj/app/assets/img/logo.png" := "PNG"]>
  (<["/proj/test/main.js" := "assert(true)"]>
  (<[react := "React"]>
  (<[bootstrap_css := "body {}"]>
  (<[glyphs := "WOFF"]> ∅)))))))).

Definition project : FS := mkFS tree ∅.

(** What loading the gulpfile in [project] yields: the parsed manifest,
    the task [buildAllScripts], and the file system it leaves. *)
Definition deps : Deps := mkDeps [react] [bootstrap_css] [glyphs].

Definition buildAllScripts : Task :=
  promisify (compiler_run tools (mkCompiler (webpackConfig proc deps))).

Definition loaded : FS := final (buildAllScripts_iife tools proc project).

(** The project with a failing test. *)
Definition failing : FS :=
  mkFS (<["/proj/test/main.js" := "assert(false)"]> tree) ∅.

(** The project with a warning, and with an error, for the linter. *)
Definition warned : FS :=
  mkFS (<["/proj/app/main.jsx" := "console.log(1)"]> tree) ∅.

Definition flawed : FS :=
  mkFS (<["/proj/app/main.jsx" := "debugger;"]> tree) ∅.

(** The project without its environment file, before and after the
    gulpfile has loaded. *)
Definition no_env : FS := mkFS (delete "/proj/.env" tree) ∅.

Definition loaded_no_env : FS :=
  final (buildAllScripts_iife tools proc no_env).

(** The project after it has loaded and its manifest has been replaced by
    one without vendor scripts. *)
Definition manifest_changed : FS :=
  mkFS (<["/proj/deps.json" := manifest_no_vendor]> (files loaded))
       (dirs loaded).

(** The loaded project after its manifest has been deleted, and the error
    of a build there: the two vendor tasks fail. *)
Definition manifest_lost : FS :=
  mkFS (delete "/proj/deps.json" (files loaded)) (dirs loaded).

Definition manifest_lost_message : string :=
  "ENOENT: no such file or directory, open '/proj/deps.json'; " +:+
  "ENOENT: no such file or directory, open '/proj/deps.json'".


(** The same project after its manifest and environment file are gone. *)
Definition bare : FS :=
  mkFS (delete "/proj/deps.json" (delete "/proj/.env" tree)) ∅.

End Sample.

(** ** Traces *)

Definition writes (t : list IOEvent) : list string :=
  omap (fun e => match e with EvWrite p => Some p | _ => None end) t.

Definition reads (t : list IOEvent) : list string :=
  omap (fun e => match e with EvRead p => Some p | _ => None end) t.

(** The lines printed, by [console.log] or by [gp.util.log]. *)
Definition printed (t : list IOEvent) : list string :=
  omap (fun e => match e with
                 | EvConsole l | EvGutilLog l => Some l
                 | _ => None
                 end) t.

Definition webpack_news (t : list IOEvent) : list WebpackConfig :=
  omap (fun e => match e with EvWebpackNew c => Some c | _ => None end) t.

Definition webpack_runs (t : list IOEvent) : list WebpackConfig :=
  omap (fun e => match e with EvWebpackRun c => Some c | _ => None end) t.

Definition servers (t : list IOEvent) : list BrowserSyncOptions :=
  omap (fun e => match e with EvBrowserSync o => Some o | _ => None end) t.

(** [contains needle hay]: [needle] occurs in [hay]. *)
Fixpoint contains (needle hay : string) : bool :=
  String.prefix needle hay ||
  match hay with
  | EmptyString => false
  | String _ rest => contains needle rest
  end.

(** Every event a computation can produce satisfies [Q]. *)
Definition all_events {A} (Q : IOEvent -> Prop) (c : IO A) : Prop :=
  forall fs, Forall Q (events (c fs)).

(** The marker events of pro-gulp's calls. *)
Definition is_marker (e : IOEvent) : Prop :=
  match e with
  | EvTaskStart _ | EvTaskEnd _ | EvTaskError _ _ => True
  | _ => False
  end.

(** The events of a leaf task: reads, directories, console lines, a compiler
    run, and writes to the paths in [W]. *)
Definition leaf_event (W : string -> Prop) (e : IOEvent) : Prop :=
  match e with
  | EvWrite p => W p
  | EvRead _ | EvMkdir _ | EvConsole _ | EvWebpackRun _ => True
  | _ => False
  end.

(** Where the gulpfile writes: two files at the root of the output
    directory, everything else below [_assets]. *)
Definition layout (P : Process) (p : string) : Prop :=
  p = buildDir P +:+ "/index.html" \/
  p = buildDir P +:+ "/app-config.js" \/
  String.prefix (buildDir P +:+ "/_assets/") p = true.

(** The events of a group: those of its leaves, and the markers. *)
Definition group_event (W : string -> Prop) (e : IOEvent) : Prop :=
  match e with
  | EvWrite p => W p
  | _ => True
  end.


(** The listener of the gulpfile, followed by pro-gulp's two. *)
Definition test_listeners : list Listener :=
  [on_error (fun _ => [Emit SEnd]); on_end [Resolve];
   on_error (fun m => [Reject m])].

(** Some message of the results has severity error. *)
Definition has_error (results : list LintResult) : Prop :=
  exists r m, r ∈ results /\ m ∈ messages r /\ severity m = Error.

(** What the linter prints. *)
Definition lint_report (T : Tools) (results : list LintResult) : list IOEvent :=
  match results with
  | [] => []
  | _ => if String.eqb (eslint_formatter T results) "" then []
         else [EvConsole (eslint_formatter T results)]
  end.

(** The events of writing files out: directories and files. *)
Definition output_event (e : IOEvent) : Prop :=
  match e with
  | EvMkdir _ | EvWrite _ => True
  | _ => False
  end.

(** Any event but a start of the dev server. *)
Definition no_server (e : IOEvent) : Prop :=
  match e with
  | EvBrowserSync _ => False
  | _ => True
  end.

(** The trace of [dev] after a successful build with trace [tb]. *)
Definition dev_trace (P : Process) (tb : list IOEvent) : list IOEvent :=
  (EvTaskStart "build" :: tb ++ [EvTaskEnd "build"]) ++
  [EvTaskStart "test"; EvTaskEnd "test";
   EvTaskStart "setupDevServer"; EvBrowserSync (browserSyncOptions P);
   EvTaskEnd "setupDevServer"; EvTaskStart "setupWatchers"] ++
  map (fun b => EvWatch b.1 b.2) (watch_bindings P) ++
  [EvTaskEnd "setupWatchers"].

(** The tasks called through pro-gulp, in the order of their calls. *)
Definition started (t : list IOEvent) : list string :=
  omap (fun e => match e with EvTaskStart n => Some n | _ => None end) t.

(** The bindings handed to [gulp.watch]. *)
Definition watches (t : list IOEvent) : list (list string * TaskRef) :=
  omap (fun e => match e with EvWatch g b => Some (g, b) | _ => None end) t.

(** A computation that keeps the file system apart from what its trace
    reports: a file changes only at a path it writes, and no file or
    directory disappears. *)
Definition keeps {A} (c : IO A) : Prop :=
  forall fs,
    (forall p, p ∉ writes (events (c fs)) ->
       files (final (c fs)) !! p = files fs !! p) /\
    dom (files fs) ⊆ dom (files (final (c fs))) /\
    dirs fs ⊆ dirs (final (c fs)).

(** The tasks a watch binding names. *)
Definition ref_names (r : TaskRef) : list string :=
  match r with
  | ProGulpTask name => [name]
  | ProGulpParallel names => names
  end.


(** What a computation writes is there when it ends. *)
Definition lands {A} (c : IO A) : Prop :=
  forall fs p,
    p ∈ writes (events (c fs)) -> is_Some (files (final (c fs)) !! p).

(** browser-sync's watch of its [files] option: the pattern [dir/**/*]
    covers the paths below [dir]. *)
Definition server_sees (o : BrowserSyncOptions) (p : string) : Prop :=
  exists dir,
    bs_files o = dir +:+ "/**/*" /\ String.prefix (dir +:+ "/") p = true.

(** * Properties *)

(** Case analysis on a lookup in a registry built by successive inserts. *)
Ltac registry_cases H :=
  repeat (apply lookup_insert_Some in H as [[<- <-]|[_ H]]);
  [..| by rewrite lookup_empty in H].

Lemma events_bind {A B} (c : IO A) (k : A -> IO B) fs :
  events (io_bind c k fs) =
  events (c fs) ++ match result (c fs) with
                   | Val a => events (k a (final (c fs)))
                   | Throw _ => []
                   end.
Proof.
  unfold io_bind, events, result, final.
  destruct (c fs) as [[[a|m] fs1] t1]; simpl.
  - by destruct (k a fs1) as [[r fs2] t2].
  - by rewrite app_nil_r.
Qed.

Lemma all_events_ret {A} Q (a : A) : all_events Q (io_ret a).
Proof. intros fs. constructor. Qed.

Lemma all_events_throw {A} Q m : all_events Q (@io_throw A m).
Proof. intros fs. constructor. Qed.

Lemma all_events_emit Q e : Q e -> all_events Q (io_emit e).
Proof. intros H fs. by repeat constructor. Qed.

Lemma all_events_bind {A B} Q (c : IO A) (k : A -> IO B) :
  all_events Q c -> (forall a, all_events Q (k a)) -> all_events Q (io_bind c k).
Proof.
  intros Hc Hk fs. rewrite events_bind. apply Forall_app. split; [apply Hc|].
  destruct (result (c fs)); [apply Hk | constructor].
Qed.

Lemma all_events_try {A} Q (c : IO A) (h : string -> IO A) :
  all_events Q c -> (forall m, all_events Q (h m)) -> all_events Q (io_try c h).
Proof.
  intros Hc Hh fs. specialize (Hc fs). unfold io_try, events in *.
  destruct (c fs) as [[[a|m] fs1] t1]; simpl in *; [done|].
  specialize (Hh m fs1). unfold events in Hh.
  destruct (h m fs1) as [[r fs2] t2]; simpl in *. by apply Forall_app.
Qed.

Lemma all_events_of_sum {A} Q (r : string + A) : all_events Q (io_of_sum r).
Proof. destruct r; [apply all_events_throw | apply all_events_ret]. Qed.

Lemma all_events_readFileSync Q path :
  Q (EvRead path) -> all_events Q (readFileSync path).
Proof.
  intros H fs. unfold readFileSync, events.
  destruct (files fs !! path); simpl; by repeat constructor.
Qed.

Lemma all_events_writeFileSync Q path data :
  Q (EvWrite path) -> all_events Q (writeFileSync path data).
Proof.
  intros H fs. unfold writeFileSync, events.
  destruct (bool_decide _); simpl; [constructor|].
  destruct (parent_exists _ _); simpl; by repeat constructor.
Qed.

Lemma all_events_mkdirp_sync Q path :
  Q (EvMkdir path) -> all_events Q (mkdirp_sync path).
Proof.
  intros H fs. unfold mkdirp_sync, events.
  destruct (existsb _ _); simpl; by repeat constructor.
Qed.

Lemma all_events_write_out Q path data :
  (forall d, Q (EvMkdir d)) -> Q (EvWrite path) ->
  all_events Q (write_out path data).
Proof.
  intros Hd Hw. unfold write_out. apply all_events_bind.
  - destruct (dirname path);
      [by apply all_events_mkdirp_sync | apply all_events_ret].
  - intros _. by apply all_events_writeFileSync.
Qed.

Lemma all_events_impl {A} (Q R : IOEvent -> Prop) (c : IO A) :
  (forall e, Q e -> R e) -> all_events Q c -> all_events R c.
Proof. intros H Hc fs. eapply Forall_impl; [apply Hc | done]. Qed.

Lemma all_events_call Q (reg : gmap string Task) name :
  (forall e, is_marker e -> Q e) ->
  (forall t, reg !! name = Some t -> all_events Q t) ->
  all_events Q (call reg name).
Proof.
  intros Hm Hreg fs. unfold call, events.
  destruct (reg !! name) as [t|] eqn:Hl; simpl; [|constructor].
  specialize (Hreg t eq_refl fs). unfold events in Hreg.
  destruct (t fs) as [[[[]|m] fs1] tr]; simpl in *.
  - constructor; [by apply Hm|]. apply Forall_app. split; [done|].
    repeat constructor. by apply Hm.
  - constructor; [by apply Hm|]. apply Forall_app. split; [done|].
    repeat constructor. by apply Hm.
Qed.

Lemma all_events_sequence Q (reg : gmap string Task) names :
  (forall e, is_marker e -> Q e) ->
  (forall n t, reg !! n = Some t -> all_events Q t) ->
  all_events Q (sequence reg names).
Proof.
  intros Hm Hreg. induction names as [|n rest IH]; simpl.
  - apply all_events_ret.
  - apply all_events_bind; [|done]. apply all_events_call; eauto.
Qed.

Lemma settle_all_events Q (reg : gmap string Task) names fs :
  (forall e, is_marker e -> Q e) ->
  (forall n t, reg !! n = Some t -> all_events Q t) ->
  Forall Q (settle_all reg names fs).2.
Proof.
  intros Hm Hreg. revert fs. induction names as [|n rest IH]; intros fs; simpl.
  - constructor.
  - pose proof (all_events_call Q reg n Hm (Hreg n) fs) as Hc.
    unfold events in Hc. destruct (call reg n fs) as [[r fs1] t1]; simpl in *.
    specialize (IH fs1).
    destruct (settle_all reg rest fs1) as [[errs fs2] t2]; simpl in *.
    by apply Forall_app.
Qed.

Lemma all_events_parallel Q (reg : gmap string Task) names :
  (forall e, is_marker e -> Q e) ->
  (forall n t, reg !! n = Some t -> all_events Q t) ->
  all_events Q (parallel reg names).
Proof.
  intros Hm Hreg fs. pose proof (settle_all_events Q reg names fs Hm Hreg) as H.
  unfold parallel, events.
  destruct (settle_all reg names fs) as [[[|m errs] fs1] t]; simpl in *; done.
Qed.

(** ** Strings *)

Lemma append_cons (x : ascii) (a b : string) :
  String x a +:+ b = String x (a +:+ b).
Proof. reflexivity. Qed.

Lemma append_assoc (a b c : string) : (a +:+ b) +:+ c = a +:+ (b +:+ c).
Proof.
  induction a as [|x a IH]; [done|]. by rewrite !append_cons, IH.
Qed.

Lemma prefix_append (a b : string) : String.prefix a (a +:+ b) = true.
Proof.
  induction a as [|x a IH]; [by destruct b|].
  rewrite append_cons. simpl. by destruct (ascii_dec x x).
Qed.

Lemma prefix_trans_append (a b p : string) :
  String.prefix (a +:+ b) p = true -> String.prefix a p = true.
Proof.
  revert p. induction a as [|x a IH]; intros p; [by destruct p|].
  rewrite append_cons. destruct p as [|y p]; [done|]. simpl.
  destruct (ascii_dec x y); [apply IH | done].
Qed.

(** ** What each task may do *)

Lemma leaf_event_impl (W W' : string -> Prop) e :
  (forall p, W p -> W' p) -> leaf_event W e -> leaf_event W' e.
Proof. intros H. destruct e; simpl; auto. Qed.

Lemma writes_Forall (W : string -> Prop) t :
  Forall (fun e => match e with EvWrite p => W p | _ => True end) t ->
  Forall W (writes t).
Proof.
  induction 1 as [|e t He _ IH]; [constructor|].
  unfold writes in *. destruct e; simpl; auto.
Qed.

Lemma leaf_writes {A} (W : string -> Prop) (c : IO A) fs :
  all_events (leaf_event W) c -> Forall W (writes (events (c fs))).
Proof.
  intros H. apply writes_Forall. eapply Forall_impl; [apply H|].
  intros e. by destruct e.
Qed.

Section Leaves.
Context (T : Tools) (P : Process).

Lemma all_events_gulp_src {A} Q globs (k : list Vinyl -> IO A) :
  (forall srcs, all_events Q (k srcs)) ->
  all_events Q (io_bind (gulp_src T globs) k).
Proof. intros H. apply all_events_bind; [intros fs; constructor | done]. Qed.

Lemma gulp_dest_events (W : string -> Prop) dir l :
  (forall f, f ∈ l -> W (dir +:+ relative f)) ->
  all_events (leaf_event W) (gulp_dest dir l).
Proof.
  induction l as [|f l IH]; intros H; simpl; [apply all_events_ret|].
  apply all_events_bind.
  - apply all_events_write_out; [done|]. apply H. by left.
  - intros _. apply IH. intros g Hg. apply H. by right.
Qed.

Lemma emit_assets_events (W : string -> Prop) names content :
  (forall n, n ∈ names -> W n) ->
  all_events (leaf_event W) (emit_assets names content).
Proof.
  induction names as [|n names IH]; intros H; simpl; [apply all_events_ret|].
  apply all_events_bind.
  - destruct (content n); [|apply all_events_ret].
    apply all_events_write_out; [done|]. apply H. by left.
  - intros _. apply IH. intros g Hg. apply H. by right.
Qed.

Lemma read_deps_events (W : string -> Prop) :
  all_events (leaf_event W) (read_deps T P).
Proof.
  apply all_events_bind; [by apply all_events_readFileSync|].
  intros raw. apply all_events_of_sum.
Qed.

Lemma buildMainHtml_events :
  all_events (leaf_event (fun p => p = buildDir P +:+ "/index.html"))
             (buildMainHtml T P).
Proof.
  apply all_events_gulp_src. intros srcs. apply gulp_dest_events.
  intros f [g [-> _]]%list_elem_of_fmap. simpl. by rewrite append_assoc.
Qed.

Lemma compiler_run_events c :
  all_events (leaf_event (fun p => p ∈ emitted_assets (options c)))
             (compiler_run T c).
Proof.
  apply all_events_bind; [by apply all_events_emit|].
  intros _ fs. destruct (webpack_compile T (options c) (files fs)) eqn:E.
  - constructor.
  - by apply emit_assets_events.
Qed.

Lemma buildAppAssets_events :
  all_events
    (leaf_event (fun p => String.prefix (buildDir P +:+ "/_assets/") p = true))
    (buildAppAssets T P).
Proof.
  apply all_events_gulp_src. intros srcs. apply gulp_dest_events.
  intros f _. apply prefix_append.
Qed.

Lemma buildDevAppConfig_events :
  all_events (leaf_event (fun p => p = buildDir P +:+ "/app-config.js"))
             (buildDevAppConfig T P).
Proof.
  unfold buildDevAppConfig. destruct (negb _); [apply all_events_ret|].
  apply all_events_try.
  - unfold buildDevAppConfig_try.
    apply all_events_bind; [by apply all_events_readFileSync|].
    intros raw. apply all_events_bind; [apply all_events_of_sum|].
    intros config. by apply all_events_writeFileSync.
  - intros m. apply all_events_bind; [by apply all_events_emit|].
    intros _. by apply all_events_emit.
Qed.

Lemma buildVendorStyles_events :
  all_events
    (leaf_event (fun p => p = buildDir P +:+ "/_assets/css/vendor.css"))
    (buildVendorStyles T P).
Proof.
  apply all_events_bind; [apply read_deps_events|]. intros deps.
  apply all_events_gulp_src. intros srcs. apply gulp_dest_events.
  intros f Hf. destruct srcs; simpl in Hf; [by apply elem_of_nil in Hf|].
  apply list_elem_of_singleton in Hf as ->. simpl. by rewrite append_assoc.
Qed.

Lemma buildVendorFonts_events :
  all_events
    (leaf_event
       (fun p => String.prefix (buildDir P +:+ "/_assets/fonts/") p = true))
    (buildVendorFonts T P).
Proof.
  apply all_events_bind; [apply read_deps_events|]. intros deps.
  apply all_events_gulp_src. intros srcs. apply gulp_dest_events.
  intros f _. apply prefix_append.
Qed.

(** The task [test] changes nothing and always completes. *)
Lemma stream_promise_run own e fs :
  stream_promise own e fs = (result (stream_promise own e fs), fs, []).
Proof.
  unfold stream_promise. by destruct (emit _ _ _ _) as [[[]|m]|].
Qed.

Lemma test_run fs :
  test T P fs = (result (test T P fs), fs, []).
Proof.
  unfold test, io_bind, gulp_src. simpl.
  rewrite stream_promise_run. simpl. by rewrite stream_promise_run at 1.
Qed.

Lemma test_events (W : string -> Prop) : all_events (leaf_event W) (test T P).
Proof. intros fs. rewrite test_run. constructor. Qed.

(** What the function expression of [buildAllScripts] leaves behind when
    it returns. *)
Lemma iife_value fs0 bas fs1 t0 :
  buildAllScripts_iife T P fs0 = (Val bas, fs1, t0) ->
  exists raw deps,
    files fs0 !! depsPath P = Some raw /\
    JSON_parse T raw = inr deps /\
    bas = promisify (compiler_run T (mkCompiler (webpackConfig P deps))) /\
    t0 = [EvRead (depsPath P); EvMkdir (buildDir P +:+ "/_assets/js");
          EvWebpackNew (webpackConfig P deps)] /\
    files fs1 = files fs0.
Proof.
  unfold buildAllScripts_iife, read_deps, io_bind, readFileSync, mkdirp_sync,
    webpack, io_of_sum, io_emit, io_ret, io_throw.
  destruct (files fs0 !! depsPath P) as [raw|] eqn:Hraw; [|done].
  destruct (JSON_parse T raw) as [m|deps] eqn:Hdeps; [done|].
  destruct (existsb _ _); [done|]. simpl. intros [= <- <- <-].
  by exists raw, deps.
Qed.

End Leaves.

(** ** The output layout *)

Lemma prefix_under (b x rest : string) :
  String.prefix (b +:+ x) (b +:+ (x +:+ rest)) = true.
Proof. rewrite <- append_assoc. apply prefix_append. Qed.

Section Layout.
Context (T : Tools) (P : Process).

Lemma emitted_assets_webpackConfig deps :
  emitted_assets (webpackConfig P deps) =
  [buildDir P +:+ "/_assets/js/app.js";
   buildDir P +:+ "/_assets/js/vendor.js";
   (buildDir P +:+ "/_assets/js/app.js") +:+ ".map";
   (buildDir P +:+ "/_assets/js/vendor.js") +:+ ".map"].
Proof. reflexivity. Qed.

Lemma scripts_under_js deps p :
  p ∈ emitted_assets (webpackConfig P deps) ->
  String.prefix (buildDir P +:+ "/_assets/js/") p = true.
Proof.
  rewrite emitted_assets_webpackConfig. intros H.
  repeat (apply elem_of_cons in H as [->|H]);
    [| | | | by apply elem_of_nil in H].
  - exact (prefix_under _ "/_assets/js/" "app.js").
  - exact (prefix_under _ "/_assets/js/" "vendor.js").
  - rewrite append_assoc. exact (prefix_under _ "/_assets/js/" "app.js.map").
  - rewrite append_assoc.
    exact (prefix_under _ "/_assets/js/" "vendor.js.map").
Qed.

Lemma under_js_under_assets p :
  String.prefix (buildDir P +:+ "/_assets/js/") p = true ->
  String.prefix (buildDir P +:+ "/_assets/") p = true.
Proof.
  change (buildDir P +:+ "/_assets/js/")
    with (buildDir P +:+ ("/_assets/" +:+ "js/")).
  rewrite <- append_assoc. apply prefix_trans_append.
Qed.

Lemma under_css_under_assets :
  String.prefix (buildDir P +:+ "/_assets/")
                (buildDir P +:+ "/_assets/css/vendor.css") = true.
Proof. exact (prefix_under _ "/_assets/" "css/vendor.css"). Qed.

Lemma under_fonts_under_assets p :
  String.prefix (buildDir P +:+ "/_assets/fonts/") p = true ->
  String.prefix (buildDir P +:+ "/_assets/") p = true.
Proof.
  change (buildDir P +:+ "/_assets/fonts/")
    with (buildDir P +:+ ("/_assets/" +:+ "fonts/")).
  rewrite <- append_assoc. apply prefix_trans_append.
Qed.

Variable deps : Deps.

Let buildAllScripts : Task :=
  promisify (compiler_run T (mkCompiler (webpackConfig P deps))).

(** Every task of the leaf registry writes inside the layout. *)
Lemma leaves_layout n t :
  proGulp_leaves T P buildAllScripts !! n = Some t ->
  all_events (leaf_event (layout P)) t.
Proof.
  intros H. unfold proGulp_leaves in H. registry_cases H.
  - eapply all_events_impl; [|apply buildVendorFonts_events].
    intros e. apply leaf_event_impl. intros p Hp. right. right.
    by apply under_fonts_under_assets.
  - eapply all_events_impl; [|apply buildVendorStyles_events].
    intros e. apply leaf_event_impl. intros p ->. right. right.
    apply under_css_under_assets.
  - eapply all_events_impl; [|apply buildDevAppConfig_events].
    intros e. apply leaf_event_impl. intros p ->. right. by left.
  - eapply all_events_impl; [|apply buildAppAssets_events].
    intros e. apply leaf_event_impl. intros p Hp. by right; right.
  - eapply all_events_impl; [|apply compiler_run_events].
    intros e. apply leaf_event_impl. intros p Hp. right. right.
    by apply under_js_under_assets, (scripts_under_js deps).
  - eapply all_events_impl; [|apply buildMainHtml_events].
    intros e. apply leaf_event_impl. intros p ->. by left.
Qed.

Lemma leaf_group_event W e : leaf_event W e -> group_event W e.
Proof. by destruct e. Qed.

Lemma build_layout :
  all_events (group_event (layout P)) (build T P buildAllScripts).
Proof.
  apply all_events_parallel; [by intros []|].
  intros n t Hn. eapply all_events_impl; [apply leaf_group_event|].
  by eapply leaves_layout.
Qed.

(** Every task of pro-gulp's registry writes inside the layout. *)
Lemma tasks_layout n t :
  proGulp_tasks T P buildAllScripts !! n = Some t ->
  all_events (group_event (layout P)) t.
Proof.
  intros H. unfold proGulp_tasks in H.
  apply lookup_insert_Some in H as [[_ <-]|[_ H]].
  { unfold setupWatchers. generalize (watch_bindings P).
    intros l. induction l as [|[g b] l IH]; simpl; [apply all_events_ret|].
    apply all_events_bind; [by apply all_events_emit | done]. }
  apply lookup_insert_Some in H as [[_ <-]|[_ H]].
  { by apply all_events_emit. }
  apply lookup_insert_Some in H as [[_ <-]|[_ H]].
  { eapply all_events_impl; [apply leaf_group_event|].
    apply (test_events T P (layout P)). }
  apply lookup_insert_Some in H as [[_ <-]|[_ H]].
  { apply build_layout. }
  eapply all_events_impl; [apply leaf_group_event|].
  by eapply leaves_layout.
Qed.

End Layout.


(** ** The registries *)

Section Registries.
Context (T : Tools) (P : Process).

Lemma gulpfile_value fs0 reg fs1 t1 :
  gulpfile T P fs0 = (Val reg, fs1, t1) ->
  exists bas,
    buildAllScripts_iife T P fs0 = (Val bas, fs1, t1) /\
    reg = gulp_tasks T P bas.
Proof.
  unfold gulpfile, io_bind, io_ret.
  destruct (buildAllScripts_iife T P fs0) as [[[bas|m] fs] t]; [|done].
  rewrite app_nil_r. intros [= <- <- <-]. by exists bas.
Qed.

Variable bas : Task.

Lemma gulp_tasks_default :
  gulp_tasks T P bas !! "default" = Some (gulp_default T).
Proof. apply lookup_insert_eq. Qed.

Lemma gulp_tasks_dev : gulp_tasks T P bas !! "dev" = Some (dev T P bas).
Proof.
  unfold gulp_tasks. rewrite lookup_insert_ne by done. apply lookup_insert_eq.
Qed.

Lemma gulp_tasks_test :
  gulp_tasks T P bas !! "test" = Some (call (proGulp_tasks T P bas) "test").
Proof.
  unfold gulp_tasks. rewrite !lookup_insert_ne by done. apply lookup_insert_eq.
Qed.

Lemma gulp_tasks_lint : gulp_tasks T P bas !! "lint" = Some (lint T P).
Proof.
  unfold gulp_tasks. rewrite !lookup_insert_ne by done. apply lookup_insert_eq.
Qed.

Lemma proGulp_tasks_setupWatchers :
  proGulp_tasks T P bas !! "setupWatchers" = Some (setupWatchers P).
Proof. apply lookup_insert_eq. Qed.

Lemma proGulp_tasks_setupDevServer :
  proGulp_tasks T P bas !! "setupDevServer" = Some (setupDevServer P).
Proof.
  unfold proGulp_tasks. rewrite lookup_insert_ne by done.
  apply lookup_insert_eq.
Qed.

Lemma proGulp_tasks_test : proGulp_tasks T P bas !! "test" = Some (test T P).
Proof.
  unfold proGulp_tasks. rewrite !lookup_insert_ne by done.
  apply lookup_insert_eq.
Qed.

Lemma proGulp_tasks_build :
  proGulp_tasks T P bas !! "build" = Some (build T P bas).
Proof.
  unfold proGulp_tasks. rewrite !lookup_insert_ne by done.
  apply lookup_insert_eq.
Qed.

Lemma proGulp_tasks_buildAllScripts :
  proGulp_tasks T P bas !! "buildAllScripts" = Some bas.
Proof.
  unfold proGulp_tasks, proGulp_leaves. rewrite !lookup_insert_ne by done.
  apply lookup_insert_eq.
Qed.

Lemma proGulp_leaves_buildDevAppConfig :
  proGulp_leaves T P bas !! "buildDevAppConfig" = Some (buildDevAppConfig T P).
Proof.
  unfold proGulp_leaves. rewrite !lookup_insert_ne by done.
  apply lookup_insert_eq.
Qed.

End Registries.

(** ** The test task *)

Lemma settle_is_Some p r : is_Some (settle p r).
Proof. destruct p; simpl; eauto. Qed.

(** pro-gulp's two listeners settle the promise whatever the task's own
    listeners did: a stream that ends or fails never leaves it pending. *)
Lemma emit_settles d own e p :
  is_Some (emit (S d) (own ++ [on_end [Resolve]; on_error (fun m => [Reject m])])
             e p).
Proof.
  simpl. rewrite fold_left_app. simpl.
  destruct e; simpl; apply settle_is_Some.
Qed.

Lemma stream_promise_settles own e :
  stream_promise own e = io_ret tt \/ exists m, stream_promise own e = io_throw m.
Proof.
  unfold stream_promise, emit_depth.
  destruct (emit_settles 15 own e None) as [[[]|m] ->]; eauto.
Qed.

(** The promise of the task [test], for each way the runner can end. *)
Lemma test_promise e :
  stream_promise [on_error (fun _ => [Emit SEnd])] e = io_ret tt.
Proof. by destruct e. Qed.

(** With room for one nested emit, an error of the runner resolves the
    promise: the gulpfile's listener ends the stream before pro-gulp's
    listener for errors is reached. *)
Lemma swallowed_at_any_depth d m :
  emit (S (S d)) test_listeners (SError m) None = Some (Val tt).
Proof. reflexivity. Qed.

(** Without the gulpfile's listener the same error rejects it. *)
Lemma not_swallowed_rejects d m :
  emit (S d) [on_end [Resolve]; on_error (fun m => [Reject m])] (SError m) None
  = Some (Throw m).
Proof. reflexivity. Qed.

Lemma test_always_ends T P fs : test T P fs = (Val tt, fs, []).
Proof.
  unfold test, io_bind, gulp_src. simpl.
  by destruct (mocha T (mochaOptions P) _).
Qed.

(** C1, as stated, fails: in the sample project with a failing test the
    runner reports a failure, and the process exits with status zero after
    printing only the start and the end of the task. *)
Lemma C1_counterexample :
  mocha Sample.tools (mochaOptions Sample.proc)
    (glob Sample.tools [testDir Sample.proc +:+ "/**/*.js";
                        testDir Sample.proc +:+ "/**/*.jsx"]
       (files Sample.failing)) = Some "Mocha exited with code 1" /\
  (gulp_cli Sample.tools Sample.proc "test" Sample.failing).1.1 = 0%Z /\
  printed (gulp_cli Sample.tools Sample.proc "test" Sample.failing).2
    = ["Starting 'test'..."; "Finished 'test'"].
Proof. vm_compute. done. Qed.

(** C1, amended: when the external test runner reports a failure, the
    listener of the [test] task swallows the error and ends the stream, so
    the task completes: it changes nothing and prints nothing, and the
    process reports the task as finished and exits with status zero. *)
Theorem C1_test_failure_swallowed (T : Tools) (P : Process) (fs0 fs1 : FS)
    (reg : gmap string Task) (t1 : list IOEvent) (m : string) :
  gulpfile T P fs0 = (Val reg, fs1, t1) ->
  mocha T (mochaOptions P)
    (glob T [testDir P +:+ "/**/*.js"; testDir P +:+ "/**/*.jsx"] (files fs1))
    = Some m ->
  test T P fs1 = (Val tt, fs1, []) /\
  gulp_cli T P "test" fs0 =
    (0%Z, fs1,
     t1 ++ [EvGutilLog "Starting 'test'..."; EvTaskStart "test";
            EvTaskEnd "test"; EvGutilLog "Finished 'test'"]).
Proof.
  intros Hload _. split; [apply test_always_ends|].
  destruct (gulpfile_value T P _ _ _ _ Hload) as (bas & _ & ->).
  unfold gulp_cli. rewrite Hload, gulp_tasks_test.
  unfold call. rewrite proGulp_tasks_test, test_always_ends. reflexivity.
Qed.

Lemma C1_test_failure_swallowed_witness :
  test Sample.tools Sample.proc
       (final (gulpfile Sample.tools Sample.proc Sample.failing))
  = (Val tt, final (gulpfile Sample.tools Sample.proc Sample.failing), []) /\
  (gulp_cli Sample.tools Sample.proc "test" Sample.failing).1.1 = 0%Z.
Proof.
  destruct (C1_test_failure_swallowed Sample.tools Sample.proc Sample.failing
              (final (gulpfile Sample.tools Sample.proc Sample.failing))
              (gulp_tasks Sample.tools Sample.proc
                 (promisify (compiler_run Sample.tools
                    (mkCompiler (webpackConfig Sample.proc Sample.deps)))))
              (events (gulpfile Sample.tools Sample.proc Sample.failing))
              "Mocha exited with code 1") as [H1 H2].
  - reflexivity.
  - vm_compute. reflexivity.
  - split; [exact H1 | by rewrite H2].
Defined.

(** ** The dev server *)

(** C4, as stated, fails on the configurable port: with PORT set in the
    environment the server is still given 8080, and no two processes are
    ever given different ports. *)
Lemma C4_counterexample :
  bs_port (browserSyncOptions (mkProcess "/proj" (<["PORT" := "3000"]> ∅)))
    = 8080%Z /\
  ~ exists P1 P2 : Process,
      bs_port (browserSyncOptions P1) <> bs_port (browserSyncOptions P2).
Proof. split; [reflexivity|]. intros (P1 & P2 & H). by apply H. Qed.

(** C4, amended: the dev server is started with the build output directory
    as its root, on the fixed port 8080, with the history-fallback middleware
    for single-page routing, watching every file below the output directory
    for reloads, with cross-client syncing (ghost mode) and the notification
    overlay both off. *)
Theorem C4_dev_server (P : Process) (fs : FS) :
  setupDevServer P fs = (Val tt, fs, [EvBrowserSync (browserSyncOptions P)]) /\
  server_baseDir (browserSyncOptions P) = buildDir P /\
  server_middleware (browserSyncOptions P) = [history] /\
  bs_files (browserSyncOptions P) = buildDir P +:+ "/**/*" /\
  bs_port (browserSyncOptions P) = 8080%Z /\
  ghostMode (browserSyncOptions P) = false /\
  notify (browserSyncOptions P) = false /\
  bs_open (browserSyncOptions P) = false /\
  injectChanges (browserSyncOptions P) = false /\
  reloadDebounce (browserSyncOptions P) = 1000%Z.
Proof. by repeat split. Qed.

(** ** The default task *)

Lemma gutil_log_all_run ls fs :
  gutil_log_all ls fs = (Val tt, fs, map EvGutilLog ls).
Proof.
  induction ls as [|l ls IH]; [done|].
  simpl. unfold io_bind, gutil_log, io_emit. by rewrite IH.
Qed.

Lemma usage_names T :
  forallb (fun name => existsb (contains name) (usage T))
          ["build"; "dev"; "lint"; "test"] = true.
Proof.
  unfold usage, colors_green, colors_blue. by destruct (supportsColor T).
Qed.

(** The gulpfile loads exactly when the manifest is read and parsed and the
    directory of the scripts can be created. *)
Lemma gulpfile_loads T P fs0 raw deps :
  files fs0 !! depsPath P = Some raw ->
  JSON_parse T raw = inr deps ->
  existsb (fun d => bool_decide (is_Some (files fs0 !! d)))
    (ancestors (buildDir P +:+ "/_assets/js") ++ [buildDir P +:+ "/_assets/js"])
  = false ->
  exists reg fs1 t1, gulpfile T P fs0 = (Val reg, fs1, t1).
Proof.
  intros Hraw Hdeps Hdirs.
  unfold gulpfile, buildAllScripts_iife, read_deps, io_bind, readFileSync,
    mkdirp_sync, io_of_sum, io_ret.
  rewrite Hraw, Hdeps. simpl. rewrite Hdirs. simpl. eauto.
Qed.

(** When the gulpfile fails to load, no task runs: the error is printed and
    the process exits with status 1. *)
Lemma gulp_cli_load_failure T P task fs0 m fs1 t1 :
  gulpfile T P fs0 = (Throw m, fs1, t1) ->
  gulp_cli T P task fs0 = (1%Z, fs1, t1 ++ [EvConsole m]).
Proof. intros H. unfold gulp_cli. by rewrite H. Qed.

(** C9, as stated, fails: in a project without deps.json the gulpfile does
    not load, so the default entry point prints the error instead of the
    usage and exits with status 1. *)
Lemma C9_counterexample :
  (gulp_cli Sample.tools Sample.proc "default" Sample.bare).1.1 = 1%Z /\
  printed (gulp_cli Sample.tools Sample.proc "default" Sample.bare).2
    = ["ENOENT: no such file or directory, open '/proj/deps.json'"].
Proof. vm_compute. done. Qed.

(** C9, amended: when the gulpfile loads (deps.json is read and parsed and
    the directory of the scripts can be created), the default entry point
    prints the usage listing, which contains each of the task names build,
    dev, lint and test, exits with status zero, and writes no file: the
    files are those it started with. *)
Theorem C9_default_usage (T : Tools) (P : Process) (fs0 fs1 : FS)
    (reg : gmap string Task) (t1 : list IOEvent) :
  gulpfile T P fs0 = (Val reg, fs1, t1) ->
  gulp_cli T P "default" fs0 =
    (0%Z, fs1,
     t1 ++ [EvGutilLog "Starting 'default'..."] ++ map EvGutilLog (usage T)
        ++ [EvGutilLog "Finished 'default'"]) /\
  forallb (fun name => existsb (contains name) (usage T))
          ["build"; "dev"; "lint"; "test"] = true /\
  files fs1 = files fs0 /\
  writes t1 = [].
Proof.
  intros Hload.
  destruct (gulpfile_value T P _ _ _ _ Hload) as (bas & Hbas & ->).
  apply iife_value in Hbas as (raw & deps & _ & _ & _ & -> & Hfiles).
  repeat split; [|apply usage_names|done].
  unfold gulp_cli. rewrite Hload, gulp_tasks_default.
  unfold gulp_default. by rewrite gutil_log_all_run.
Qed.

Lemma C9_default_usage_witness :
  (gulp_cli Sample.tools Sample.proc "default" Sample.project).1.1 = 0%Z /\
  files (final (gulpfile Sample.tools Sample.proc Sample.project))
    = files Sample.project.
Proof.
  destruct (C9_default_usage Sample.tools Sample.proc Sample.project
              (final (gulpfile Sample.tools Sample.proc Sample.project))
              (gulp_tasks Sample.tools Sample.proc Sample.buildAllScripts)
              (events (gulpfile Sample.tools Sample.proc Sample.project)))
    as (H1 & _ & H3 & _).
  - reflexivity.
  - split; [by rewrite H1 | exact H3].
Defined.

(** ** The linter *)

Section Lint.
Context (T : Tools) (P : Process).

Lemma errorCount_has_error results :
  has_error results <-> errorCount results <> 0.
Proof.
  unfold errorCount, has_error. rewrite length_zero_iff_nil.
  split.
  - intros (r & m & Hr & Hm & Hs) Hnil.
    assert (m ∈ filter (fun m => is_error m = true)
                       (flat_map messages results)) as Hin.
    { apply list_elem_of_filter. split.
      - unfold is_error. by rewrite Hs.
      - apply list_elem_of_In, in_flat_map. exists r.
        split; by apply list_elem_of_In. }
    rewrite Hnil in Hin. by apply elem_of_nil in Hin.
  - intros Hne.
    destruct (filter _ _) as [|m l] eqn:E; [done|].
    assert (m ∈ filter (fun m => is_error m = true)
                       (flat_map messages results)) as Hin
      by (rewrite E; left).
    apply list_elem_of_filter in Hin as [Hm Hin].
    apply list_elem_of_In, in_flat_map in Hin as (r & Hr & Hin).
    exists r, m. repeat split; try by apply list_elem_of_In.
    unfold is_error in Hm. by destruct (severity m).
Qed.

Lemma lint_run fs :
  let results := lint_results T (glob T (lint_srcs P) (files fs)) in
  lint T P fs =
    (result (eslint_failAfterError results fs), fs, lint_report T results).
Proof.
  intros results. unfold lint, io_bind, gulp_src. simpl. fold results.
  unfold eslint_format, lint_report, eslint_failAfterError.
  unfold io_ret, io_throw, console_log, io_emit, result.
  destruct results as [|r rs]; [by case_bool_decide|].
  destruct (String.eqb _ ""); by case_bool_decide.
Qed.

End Lint.

(** C8, as stated, fails: the sample project with a [console] statement has
    a lint violation, of severity warning; the report is printed and the
    process exits with status zero. *)
Lemma C8_counterexample :
  flat_map messages
    (lint_results Sample.tools
       (glob Sample.tools (lint_srcs Sample.proc) (files Sample.warned)))
    = [mkLintMessage Warning "Unexpected console statement"] /\
  (gulp_cli Sample.tools Sample.proc "lint" Sample.warned).1.1 = 0%Z /\
  printed (gulp_cli Sample.tools Sample.proc "lint" Sample.warned).2
    = ["Starting 'lint'...";
       "main.jsx: Unexpected console statement" +:+ Sample.nl;
       "Finished 'lint'"].
Proof. vm_compute. done. Qed.

(** C8, amended: if a lint violation of severity error is found in the
    application or test sources, the lint task fails and the process exits
    with status 1, after the formatter's report has been printed; when no
    violation has severity error, warnings included, the same report is
    printed and the process exits with status zero.  The report is the
    formatter's text for all the results; it is printed whenever there are
    results and that text is not empty. *)
Theorem C8_lint_fails_on_error (T : Tools) (P : Process) (fs0 fs1 : FS)
    (reg : gmap string Task) (t1 : list IOEvent) :
  gulpfile T P fs0 = (Val reg, fs1, t1) ->
  let results := lint_results T (glob T (lint_srcs P) (files fs1)) in
  (has_error results ->
   exists msg,
     gulp_cli T P "lint" fs0 =
       (1%Z, fs1,
        t1 ++ [EvGutilLog "Starting 'lint'..."] ++ lint_report T results
           ++ [EvGutilLog "'lint' errored"; EvGutilLog msg])) /\
  (~ has_error results ->
   gulp_cli T P "lint" fs0 =
     (0%Z, fs1,
      t1 ++ [EvGutilLog "Starting 'lint'..."] ++ lint_report T results
         ++ [EvGutilLog "Finished 'lint'"])) /\
  (results <> [] -> eslint_formatter T results <> "" ->
   lint_report T results = [EvConsole (eslint_formatter T results)]) /\
  (results = [] \/ eslint_formatter T results = "" ->
   lint_report T results = []).
Proof.
  intros Hload results.
  destruct (gulpfile_value T P _ _ _ _ Hload) as (bas & _ & ->).
  unfold gulp_cli. rewrite Hload, gulp_tasks_lint, lint_run. fold results.
  unfold eslint_failAfterError, result, io_ret, io_throw.
  pose proof (errorCount_has_error results) as E.
  split_and!.
  - intros Herr. apply E in Herr.
    rewrite bool_decide_eq_false_2 by done. simpl. by eexists.
  - intros Hnone. rewrite bool_decide_eq_true_2; [done|].
    destruct (decide (errorCount results = 0)) as [|Hne]; [done|].
    by apply E in Hne.
  - intros Hres Hreport. unfold lint_report.
    destruct results; [done|].
    apply String.eqb_neq in Hreport. by rewrite Hreport.
  - intros [Hres|Hreport]; unfold lint_report.
    + by rewrite Hres.
    + destruct results; [done|]. by rewrite Hreport.
Qed.

Lemma C8_lint_fails_on_error_witness :
  (gulp_cli Sample.tools Sample.proc "lint" Sample.flawed).1.1 = 1%Z /\
  gulp_cli Sample.tools Sample.proc "lint" Sample.warned =
    (0%Z, final (gulpfile Sample.tools Sample.proc Sample.warned),
     events (gulpfile Sample.tools Sample.proc Sample.warned)
       ++ [EvGutilLog "Starting 'lint'...";
           EvConsole ("main.jsx: Unexpected console statement" +:+ Sample.nl);
           EvGutilLog "Finished 'lint'"]).
Proof.
  split.
  - destruct (C8_lint_fails_on_error Sample.tools Sample.proc Sample.flawed
                (final (gulpfile Sample.tools Sample.proc Sample.flawed))
                (gulp_tasks Sample.tools Sample.proc Sample.buildAllScripts)
                (events (gulpfile Sample.tools Sample.proc Sample.flawed))
                eq_refl) as [Hfail _].
    destruct Hfail as [msg ->]; [|reflexivity].
    exists (mkLintResult "main.jsx"
              [mkLintMessage Error "Unexpected 'debugger' statement"]),
           (mkLintMessage Error "Unexpected 'debugger' statement").
    split; [|split; [left | reflexivity]].
    apply list_elem_of_In. vm_compute. auto.
  - destruct (C8_lint_fails_on_error Sample.tools Sample.proc Sample.warned
                (final (gulpfile Sample.tools Sample.proc Sample.warned))
                (gulp_tasks Sample.tools Sample.proc Sample.buildAllScripts)
                (events (gulpfile Sample.tools Sample.proc Sample.warned))
                eq_refl) as (_ & Hpass & _).
    rewrite Hpass; [by vm_compute|].
    intros H. apply errorCount_has_error in H. apply H. by vm_compute.
Defined.

(** ** The configuration task *)

Lemma settle_all_calls Q (reg : gmap string Task) names fs :
  (forall n fs', n ∈ names -> Forall Q (events (call reg n fs'))) ->
  Forall Q (settle_all reg names fs).2.
Proof.
  revert fs. induction names as [|n rest IH]; intros fs H; simpl.
  - constructor.
  - pose proof (H n fs ltac:(left)) as Hc. unfold events in Hc.
    destruct (call reg n fs) as [[r fs1] t1]; simpl in *.
    assert (Forall Q (settle_all reg rest fs1).2) as Hrest.
    { apply IH. intros k fs' Hk. apply H. by right. }
    destruct (settle_all reg rest fs1) as [[errs fs2] t2]; simpl in *.
    by apply Forall_app.
Qed.

(** A call records an error only for the task called, and only when that
    task fails. *)
Lemma call_no_error_for (reg : gmap string Task) name n fs :
  (forall t, reg !! n = Some t ->
     all_events (fun e => ~ is_marker e) t /\
     (n = name -> forall fs', result (t fs') = Val tt)) ->
  Forall (fun e => forall m, e <> EvTaskError name m) (events (call reg n fs)).
Proof.
  intros H. unfold call, events.
  destruct (reg !! n) as [t|]; simpl; [|constructor].
  destruct (H t eq_refl) as [Hq Hres]. specialize (Hq fs).
  unfold events, result in *.
  assert (Forall (fun e => forall m, e <> EvTaskError name m) (t fs).2) as Ht.
  { eapply Forall_impl; [exact Hq|]. intros e He m ->. by apply He. }
  destruct (t fs) as [[[[]|m] fs1] tr] eqn:E; simpl in *.
  - constructor; [done|]. apply Forall_app. split; [done|]. by repeat constructor.
  - constructor; [done|]. apply Forall_app. split; [done|].
    repeat constructor. intros m' [= -> _].
    specialize (Hres eq_refl fs). by rewrite E in Hres.
Qed.

Lemma leaf_event_not_marker W e : leaf_event W e -> ~ is_marker e.
Proof. destruct e; simpl; tauto. Qed.

Section Config.
Context (T : Tools) (P : Process).

Lemma buildDevAppConfig_result fs : result (buildDevAppConfig T P fs) = Val tt.
Proof.
  unfold buildDevAppConfig. destruct (negb _); [done|].
  unfold io_try, result.
  destruct (buildDevAppConfig_try T P fs) as [[[[]|m] fs1] t1]; done.
Qed.

(** A failure inside the guarded block leaves the file system as it was. *)
Lemma buildDevAppConfig_try_failure fs m :
  result (buildDevAppConfig_try T P fs) = Throw m ->
  final (buildDevAppConfig_try T P fs) = fs.
Proof.
  unfold buildDevAppConfig_try, io_bind, readFileSync, io_of_sum,
    writeFileSync, result, final, io_ret, io_throw.
  destruct (files fs !! (cwd P +:+ "/.env")) as [raw|]; [|done].
  destruct (dotenv_parse T raw) as [e|config]; [done|]. simpl.
  destruct (bool_decide _); [done|]. by destruct (parent_exists _ _).
Qed.

Lemma development_mode :
  NODE_ENV P = "development" ->
  negb (String.eqb (NODE_ENV P) "development") = false.
Proof. intros ->. reflexivity. Qed.

Lemma other_mode :
  NODE_ENV P <> "development" ->
  negb (String.eqb (NODE_ENV P) "development") = true.
Proof. intros H. apply String.eqb_neq in H. by rewrite H. Qed.

Lemma build_no_config_error deps fs m :
  EvTaskError "buildDevAppConfig" m ∉
    events (build T P
              (promisify (compiler_run T (mkCompiler (webpackConfig P deps))))
              fs).
Proof.
  set (bas := promisify _).
  assert (Forall (fun e => forall m, e <> EvTaskError "buildDevAppConfig" m)
            (events (build T P bas fs))) as H.
  { unfold build, parallel, events.
    pose proof (settle_all_calls
      (fun e => forall m, e <> EvTaskError "buildDevAppConfig" m)
      (proGulp_leaves T P bas)
      ["buildMainHtml"; "buildAllScripts"; "buildAppAssets";
       "buildDevAppConfig"; "buildVendorStyles"; "buildVendorFonts"] fs) as Hs.
    destruct (settle_all _ _ fs) as [[[|e errs] fs1] t]; simpl in *;
      apply Hs; intros n fs' _; apply call_no_error_for; intros t' Hn;
      (split;
       [ eapply all_events_impl; [|by eapply (leaves_layout T P deps)];
         apply leaf_event_not_marker
       | intros ->; rewrite proGulp_leaves_buildDevAppConfig in Hn;
         injection Hn as <-; intros fs''; apply buildDevAppConfig_result ]). }
  intros Hin. rewrite Forall_forall in H. by apply (H _ Hin m).
Qed.

End Config.

(** C5: the configuration task never fails.  Whatever goes wrong while the
    environment file is read or parsed, or while the script is written, the
    task returns normally; in development mode the failure is logged on the
    console, as a fixed line followed by the error's message, and the file
    system is left as it was; called through pro-gulp the task is fulfilled,
    and no build ever records an error for it. *)
Theorem C5_config_failures_contained (T : Tools) (P : Process) (fs : FS) :
  result (buildDevAppConfig T P fs) = Val tt /\
  (NODE_ENV P = "development" ->
   forall m, result (buildDevAppConfig_try T P fs) = Throw m ->
     events (buildDevAppConfig T P fs) =
       events (buildDevAppConfig_try T P fs)
         ++ [EvConsole "Error building app config"; EvConsole m] /\
     final (buildDevAppConfig T P fs) = fs) /\
  (forall bas,
     result (call (proGulp_leaves T P bas) "buildDevAppConfig" fs) = Val tt) /\
  (forall deps m,
     EvTaskError "buildDevAppConfig" m ∉
       events (build T P
                 (promisify (compiler_run T (mkCompiler (webpackConfig P deps))))
                 fs)).
Proof.
  split; [apply buildDevAppConfig_result|]. split; [|split].
  - intros Hdev m Hm.
    pose proof (buildDevAppConfig_try_failure T P fs m Hm) as Hfs.
    unfold buildDevAppConfig. rewrite development_mode by done.
    unfold io_try, events, final, result in *.
    destruct (buildDevAppConfig_try T P fs) as [[[[]|m'] fs1] t1]; [done|].
    simpl in *. by injection Hm as ->.
  - intros bas. unfold call. rewrite proGulp_leaves_buildDevAppConfig.
    pose proof (buildDevAppConfig_result T P fs) as H. unfold result in *.
    by destruct (buildDevAppConfig T P fs) as [[[[]|m] fs1] t1].
  - intros deps m. apply build_no_config_error.
Qed.

Lemma C5_config_failures_contained_witness :
  events (buildDevAppConfig Sample.tools Sample.proc Sample.loaded_no_env) =
    [EvRead "/proj/.env"; EvConsole "Error building app config";
     EvConsole "ENOENT: no such file or directory, open '/proj/.env'"] /\
  final (buildDevAppConfig Sample.tools Sample.proc Sample.loaded_no_env)
    = Sample.loaded_no_env.
Proof.
  destruct (C5_config_failures_contained Sample.tools Sample.proc
              Sample.loaded_no_env) as (_ & H & _).
  destruct (H eq_refl "ENOENT: no such file or directory, open '/proj/.env'")
    as [-> ->]; [by vm_compute|].
  split; [by vm_compute | reflexivity].
Defined.

(** C6, as stated, fails: NODE_ENV is absent, so the mode is development,
    and yet in a project without an environment file the task returns
    without writing app-config.js. *)
Lemma C6_counterexample :
  env Sample.proc !! "NODE_ENV" = None /\
  NODE_ENV Sample.proc = "development" /\
  buildDevAppConfig Sample.tools Sample.proc Sample.loaded_no_env =
    (Val tt, Sample.loaded_no_env,
     [EvRead "/proj/.env"; EvConsole "Error building app config";
      EvConsole "ENOENT: no such file or directory, open '/proj/.env'"]) /\
  files Sample.loaded_no_env !! "/proj/build/app-config.js" = None.
Proof. vm_compute. done. Qed.

(** C6, amended: when NODE_ENV is absent the mode is development.  In any
    other mode the configuration task returns without reading, writing or
    printing anything.  In development mode, when the environment file is
    read and parsed and the output file can be written, the task writes
    app-config.js in the output directory, holding the assignment of the
    parsed configuration to window.APP_CONFIG.  The task writes no other
    file, and writes only in development mode. *)
Theorem C6_config_only_in_development (T : Tools) (P : Process) (fs : FS) :
  (env P !! "NODE_ENV" = None -> NODE_ENV P = "development") /\
  (NODE_ENV P <> "development" ->
   buildDevAppConfig T P fs = (Val tt, fs, [])) /\
  (NODE_ENV P = "development" ->
   forall raw config,
     files fs !! (cwd P +:+ "/.env") = Some raw ->
     dotenv_parse T raw = inr config ->
     buildDir P +:+ "/app-config.js" ∉ dirs fs ->
     parent_exists fs (buildDir P +:+ "/app-config.js") = true ->
     buildDevAppConfig T P fs =
       (Val tt,
        mkFS (<[buildDir P +:+ "/app-config.js" :=
                "window.APP_CONFIG = " +:+ JSON_stringify T config +:+ ";"]>
                (files fs)) (dirs fs),
        [EvRead (cwd P +:+ "/.env");
         EvWrite (buildDir P +:+ "/app-config.js")])) /\
  (forall p, p ∈ writes (events (buildDevAppConfig T P fs)) ->
     NODE_ENV P = "development" /\ p = buildDir P +:+ "/app-config.js").
Proof.
  split; [|split; [|split]].
  - intros H. unfold NODE_ENV. by rewrite H.
  - intros H. unfold buildDevAppConfig. by rewrite other_mode.
  - intros Hdev raw config Hraw Hconfig Hdir Hparent.
    unfold buildDevAppConfig. rewrite development_mode by done.
    unfold io_try, buildDevAppConfig_try, io_bind, readFileSync, io_of_sum,
      writeFileSync, io_ret.
    rewrite Hraw, Hconfig. simpl.
    by rewrite bool_decide_eq_false_2, Hparent.
  - intros p Hp. split.
    + destruct (decide (NODE_ENV P = "development")) as [|Hne]; [done|].
      unfold buildDevAppConfig in Hp. rewrite other_mode in Hp by done.
      by apply elem_of_nil in Hp.
    + pose proof (leaf_writes _ _ fs (buildDevAppConfig_events T P)) as H.
      rewrite Forall_forall in H. by apply H.
Qed.

Lemma C6_config_only_in_development_witness :
  files (final (buildDevAppConfig Sample.tools Sample.proc Sample.loaded))
    !! "/proj/build/app-config.js"
  = Some ("window.APP_CONFIG = "
          +:+ Sample.JSON_stringify [("API_URL", "http://localhost:3000")]
          +:+ ";") /\
  buildDevAppConfig Sample.tools Sample.production Sample.loaded
    = (Val tt, Sample.loaded, []).
Proof.
  destruct (C6_config_only_in_development Sample.tools Sample.proc
              Sample.loaded) as (_ & _ & H & _).
  destruct (C6_config_only_in_development Sample.tools Sample.production
              Sample.loaded) as (_ & H' & _).
  split.
  - rewrite (H eq_refl "API_URL=http://localhost:3000"
               [("API_URL", "http://localhost:3000")]).
    + apply lookup_insert_eq.
    + by vm_compute.
    + by vm_compute.
    + by vm_compute.
    + by vm_compute.
  - apply H'. by vm_compute.
Defined.

(** ** The compiler of [buildAllScripts] *)

Lemma output_events_quiet t :
  Forall output_event t ->
  reads t = [] /\ webpack_news t = [] /\ webpack_runs t = [].
Proof.
  induction 1 as [|e t He _ IH]; [done|].
  unfold reads, webpack_news, webpack_runs in *. by destruct e.
Qed.

Lemma emit_assets_output names content :
  all_events output_event (emit_assets names content).
Proof.
  induction names as [|n names IH]; simpl; [apply all_events_ret|].
  apply all_events_bind; [|done].
  destruct (content n); [by apply all_events_write_out | apply all_events_ret].
Qed.

Lemma compiler_run_trace T c fs :
  exists rest,
    events (compiler_run T c fs) = EvWebpackRun (options c) :: rest /\
    Forall output_event rest.
Proof.
  unfold compiler_run. rewrite events_bind.
  cbn -[emit_assets emitted_assets].
  destruct (webpack_compile T (options c) (files fs)) as [err|content].
  - by exists [].
  - eexists. split; [done|]. apply emit_assets_output.
Qed.

(** C10: the webpack compiler of [buildAllScripts] is constructed exactly
    once, while the gulpfile loads, from the manifest as it is then: its
    vendor entry is the manifest's js list and its output paths are under
    the build directory.  The registered task is the closure over that
    compiler: run on any later file system, whatever deps.json holds by
    then, it constructs no compiler, reads no file, and runs the compiler
    built at load time. *)
Theorem C10_compiler_built_once (T : Tools) (P : Process) (fs0 fs1 : FS)
    (bas : Task) (t0 : list IOEvent) :
  buildAllScripts_iife T P fs0 = (Val bas, fs1, t0) ->
  exists raw deps,
    files fs0 !! depsPath P = Some raw /\
    JSON_parse T raw = inr deps /\
    webpack_news t0 = [webpackConfig P deps] /\
    reads t0 = [depsPath P] /\
    entry_vendor (webpackConfig P deps) = deps_js deps /\
    output_filename (webpackConfig P deps) = buildDir P +:+ "/_assets/js/app.js" /\
    plugins (webpackConfig P deps) =
      [DedupePlugin;
       CommonsChunkPlugin "vendor" (buildDir P +:+ "/_assets/js/vendor.js")] /\
    proGulp_tasks T P bas !! "buildAllScripts" = Some bas /\
    forall fs,
      webpack_news (events (bas fs)) = [] /\
      reads (events (bas fs)) = [] /\
      webpack_runs (events (bas fs)) = [webpackConfig P deps].
Proof.
  intros (raw & deps & Hraw & Hdeps & -> & -> & _)%iife_value.
  exists raw, deps. do 7 (split; [done|]).
  split; [apply proGulp_tasks_buildAllScripts|]. intros fs.
  destruct (compiler_run_trace T (mkCompiler (webpackConfig P deps)) fs)
    as (rest & Hev & Hrest).
  unfold promisify. rewrite Hev.
  apply output_events_quiet in Hrest as (Hreads & Hnews & Hruns).
  change (EvWebpackRun (options (mkCompiler (webpackConfig P deps))) :: rest)
    with ([EvWebpackRun (webpackConfig P deps)] ++ rest).
  unfold reads, webpack_news, webpack_runs in *.
  by rewrite !omap_app, Hreads, Hnews, Hruns.
Qed.

Lemma C10_compiler_built_once_witness :
  entry_vendor <$> webpack_runs (events (Sample.buildAllScripts Sample.manifest_changed))
    = [[Sample.react]].
Proof.
  destruct (C10_compiler_built_once Sample.tools Sample.proc Sample.project
              Sample.loaded Sample.buildAllScripts
              (events (buildAllScripts_iife Sample.tools Sample.proc
                         Sample.project)))
    as (raw & deps & Hraw & Hdeps & _ & _ & Hvendor & _ & _ & _ & Hrun).
  - reflexivity.
  - vm_compute in Hraw. injection Hraw as <-.
    vm_compute in Hdeps. injection Hdeps as <-.
    destruct (Hrun Sample.manifest_changed) as (_ & _ & ->). reflexivity.
Defined.

(** A restart is what makes the new manifest count: loading the gulpfile
    again in the changed project builds a compiler without vendor scripts. *)
Example restart_reads_the_manifest :
  entry_vendor <$>
    webpack_news (events (buildAllScripts_iife Sample.tools Sample.proc
                            Sample.manifest_changed)) = [[]].
Proof. by vm_compute. Qed.

(** ** The dev task *)

Lemma no_server_servers t : Forall no_server t -> servers t = [].
Proof.
  induction 1 as [|e t He _ IH]; [done|].
  unfold servers in *. by destruct e.
Qed.

Lemma servers_app a b : servers (a ++ b) = servers a ++ servers b.
Proof. apply omap_app. Qed.

Lemma servers_cons e t : no_server e -> servers (e :: t) = servers t.
Proof. by destruct e. Qed.

Lemma gulp_watch_all_run bs fs :
  gulp_watch_all bs fs = (Val tt, fs, map (fun b => EvWatch b.1 b.2) bs).
Proof.
  induction bs as [|[globs bound] bs IH]; [done|].
  simpl. unfold io_bind, io_emit. by rewrite IH.
Qed.

Section Dev.
Context (T : Tools) (P : Process).

Lemma dev_run bas fs :
  dev T P bas fs =
  match build T P bas fs with
  | (Val _, fsb, tb) => (Val tt, fsb, dev_trace P tb)
  | (Throw m, fsb, tb) =>
      (Throw m, fsb, EvTaskStart "build" :: tb ++ [EvTaskError "build" m])
  end.
Proof.
  unfold dev. cbn [sequence]. unfold io_bind at 1. unfold call at 1.
  rewrite proGulp_tasks_build.
  destruct (build T P bas fs) as [[[[]|m] fsb] tb]; [|done].
  unfold io_bind at 1. unfold call at 1.
  rewrite proGulp_tasks_test, test_always_ends.
  unfold io_bind at 1. unfold call at 1.
  rewrite proGulp_tasks_setupDevServer. unfold setupDevServer at 1, io_emit.
  unfold io_bind at 1. unfold call at 1.
  rewrite proGulp_tasks_setupWatchers. unfold setupWatchers.
  rewrite gulp_watch_all_run. unfold io_ret, dev_trace.
  by rewrite app_nil_r.
Qed.

Lemma layout_under_build p :
  layout P p -> String.prefix (buildDir P +:+ "/") p = true.
Proof.
  intros [->|[->|H]].
  - exact (prefix_under _ "/" "index.html").
  - exact (prefix_under _ "/" "app-config.js").
  - revert H.
    change (buildDir P +:+ "/_assets/")
      with (buildDir P +:+ ("/" +:+ "_assets/")).
    rewrite <- append_assoc. apply prefix_trans_append.
Qed.

Lemma servers_watch bs :
  servers (map (fun b : list string * TaskRef => EvWatch b.1 b.2) bs) = [].
Proof. apply no_server_servers, Forall_forall. by intros e [b [-> _]]%list_elem_of_fmap. Qed.

Lemma servers_dev_trace tb :
  servers tb = [] -> servers (dev_trace P tb) = [browserSyncOptions P].
Proof.
  intros Hb. unfold dev_trace.
  rewrite !servers_app, servers_cons, servers_app, Hb, servers_watch by done.
  reflexivity.
Qed.

Variable deps : Deps.

Let buildAllScripts : Task :=
  promisify (compiler_run T (mkCompiler (webpackConfig P deps))).

Lemma build_no_server fs :
  servers (events (build T P buildAllScripts fs)) = [].
Proof.
  apply no_server_servers. revert fs.
  apply all_events_parallel; [by intros []|].
  intros n t Hn. eapply all_events_impl; [|by eapply leaves_layout].
  intros e He. by destruct e.
Qed.

(** What a watch binding runs writes below the build directory. *)
Lemma bound_task_writes bound fs :
  Forall (fun p => String.prefix (buildDir P +:+ "/") p = true)
    (writes (events (run_ref (proGulp_tasks T P buildAllScripts) bound fs))).
Proof.
  apply writes_Forall.
  assert (all_events (group_event (layout P))
            (run_ref (proGulp_tasks T P buildAllScripts) bound)) as H.
  { destruct bound as [name|names]; simpl.
    - apply all_events_call; [by intros []|].
      intros t Ht. by eapply tasks_layout.
    - apply all_events_parallel; [by intros []|].
      intros n t Ht. by eapply tasks_layout. }
  eapply Forall_impl; [apply H|].
  intros e He. destruct e; try done. by apply layout_under_build.
Qed.

End Dev.

(** * Further properties of the gulpfile *)

(** ** What a computation keeps *)

Lemma result_bind {A B} (c : IO A) (k : A -> IO B) fs :
  result (io_bind c k fs) =
  match result (c fs) with
  | Val a => result (k a (final (c fs)))
  | Throw m => Throw m
  end.
Proof.
  unfold io_bind, result, final.
  destruct (c fs) as [[[a|m] fs1] t1]; simpl; [|done].
  by destruct (k a fs1) as [[r fs2] t2].
Qed.

Lemma final_bind {A B} (c : IO A) (k : A -> IO B) fs :
  final (io_bind c k fs) =
  match result (c fs) with
  | Val a => final (k a (final (c fs)))
  | Throw _ => final (c fs)
  end.
Proof.
  unfold io_bind, result, final.
  destruct (c fs) as [[[a|m] fs1] t1]; simpl; [|done].
  by destruct (k a fs1) as [[r fs2] t2].
Qed.

Lemma writes_app a b : writes (a ++ b) = writes a ++ writes b.
Proof. apply omap_app. Qed.

Lemma keeps_unchanged {A} (c : IO A) :
  (forall fs, final (c fs) = fs) -> keeps c.
Proof. intros H fs. by rewrite H. Qed.

Lemma keeps_ret {A} (a : A) : keeps (io_ret a).
Proof. by apply keeps_unchanged. Qed.

Lemma keeps_throw {A} m : keeps (@io_throw A m).
Proof. by apply keeps_unchanged. Qed.

Lemma keeps_emit e : keeps (io_emit e).
Proof. by apply keeps_unchanged. Qed.

Lemma keeps_of_sum {A} (r : string + A) : keeps (io_of_sum r).
Proof. destruct r; [apply keeps_throw | apply keeps_ret]. Qed.

Lemma keeps_bind {A B} (c : IO A) (k : A -> IO B) :
  keeps c -> (forall a, keeps (k a)) -> keeps (io_bind c k).
Proof.
  intros Hc Hk fs. destruct (Hc fs) as (Hc1 & Hc2 & Hc3).
  rewrite events_bind, final_bind.
  destruct (result (c fs)) as [a|m].
  - destruct (Hk a (final (c fs))) as (Hk1 & Hk2 & Hk3). split_and!.
    + intros p Hp. rewrite writes_app in Hp.
      apply not_elem_of_app in Hp as [Hp1 Hp2].
      by rewrite Hk1, Hc1.
    + set_solver.
    + set_solver.
  - rewrite app_nil_r. done.
Qed.

Lemma keeps_try {A} (c : IO A) (h : string -> IO A) :
  keeps c -> (forall m, keeps (h m)) -> keeps (io_try c h).
Proof.
  intros Hc Hh fs. destruct (Hc fs) as (Hc1 & Hc2 & Hc3).
  unfold io_try, events, final in *.
  destruct (c fs) as [[[a|m] fs1] t1]; [done|]. simpl in *.
  destruct (Hh m fs1) as (Hh1 & Hh2 & Hh3). unfold events, final in *.
  destruct (h m fs1) as [[r fs2] t2]. simpl in *. split_and!.
  - intros p Hp. rewrite writes_app in Hp.
    apply not_elem_of_app in Hp as [Hp1 Hp2]. by rewrite Hh1, Hc1.
  - set_solver.
  - set_solver.
Qed.

Lemma keeps_readFileSync path : keeps (readFileSync path).
Proof.
  apply keeps_unchanged. intros fs. unfold readFileSync, final.
  by destruct (files fs !! path).
Qed.

Lemma keeps_writeFileSync path data : keeps (writeFileSync path data).
Proof.
  intros fs. unfold writeFileSync, events, final.
  destruct (bool_decide _); [done|].
  destruct (parent_exists _ _); [|done]. simpl. split_and!.
  - intros p Hp. apply lookup_insert_ne. intros ->. apply Hp. by left.
  - rewrite dom_insert_L. set_solver.
  - done.
Qed.

Lemma keeps_mkdirp_sync path : keeps (mkdirp_sync path).
Proof.
  intros fs. unfold mkdirp_sync, events, final.
  destruct (existsb _ _); [done|]. simpl. split_and!; [done|done|set_solver].
Qed.

Lemma keeps_write_out path data : keeps (write_out path data).
Proof.
  apply keeps_bind.
  - destruct (dirname path); [apply keeps_mkdirp_sync | apply keeps_ret].
  - intros _. apply keeps_writeFileSync.
Qed.

Lemma keeps_call (reg : gmap string Task) name :
  (forall t, reg !! name = Some t -> keeps t) -> keeps (call reg name).
Proof.
  intros H fs. unfold call, events, final.
  destruct (reg !! name) as [t|]; [|done].
  destruct (H t eq_refl fs) as (H1 & H2 & H3). unfold events, final in *.
  destruct (t fs) as [[[[]|m] fs1] tr]; simpl in *; split_and!; try done.
  - intros p Hp. apply H1. intros Hin. apply Hp.
    change (EvTaskStart name :: tr ++ [EvTaskEnd name])
      with ([EvTaskStart name] ++ tr ++ [EvTaskEnd name]).
    rewrite !writes_app. set_solver.
  - intros p Hp. apply H1. intros Hin. apply Hp.
    change (EvTaskStart name :: tr ++ [EvTaskError name m])
      with ([EvTaskStart name] ++ tr ++ [EvTaskError name m]).
    rewrite !writes_app. set_solver.
Qed.

Lemma keeps_sequence (reg : gmap string Task) names :
  (forall n t, reg !! n = Some t -> keeps t) -> keeps (sequence reg names).
Proof.
  intros H. induction names as [|n rest IH]; simpl; [apply keeps_ret|].
  apply keeps_bind; [|done]. apply keeps_call. eauto.
Qed.

Lemma keeps_settle_all (reg : gmap string Task) names fs :
  (forall n t, reg !! n = Some t -> keeps t) ->
  (forall p, p ∉ writes (settle_all reg names fs).2 ->
     files (settle_all reg names fs).1.2 !! p = files fs !! p) /\
  dom (files fs) ⊆ dom (files (settle_all reg names fs).1.2) /\
  dirs fs ⊆ dirs (settle_all reg names fs).1.2.
Proof.
  intros H. revert fs. induction names as [|n rest IH]; intros fs; [done|].
  simpl. destruct (keeps_call reg n (H n) fs) as (H1 & H2 & H3).
  unfold events, final in *.
  destruct (call reg n fs) as [[r fs1] t1]. simpl in *.
  destruct (IH fs1) as (I1 & I2 & I3).
  destruct (settle_all reg rest fs1) as [[errs fs2] t2]. simpl in *.
  split_and!.
  - intros p Hp. rewrite writes_app in Hp.
    apply not_elem_of_app in Hp as [Hp1 Hp2]. by rewrite I1, H1.
  - by etrans.
  - by etrans.
Qed.

Lemma keeps_parallel (reg : gmap string Task) names :
  (forall n t, reg !! n = Some t -> keeps t) -> keeps (parallel reg names).
Proof.
  intros H fs. pose proof (keeps_settle_all reg names fs H) as K.
  unfold parallel, events, final.
  by destruct (settle_all reg names fs) as [[[|m errs] fs1] t].
Qed.

Section Keeps.
Context (T : Tools) (P : Process).

Lemma keeps_gulp_src {A} globs (k : list Vinyl -> IO A) :
  (forall srcs, keeps (k srcs)) -> keeps (io_bind (gulp_src T globs) k).
Proof. intros H. apply keeps_bind; [by apply keeps_unchanged | done]. Qed.

Lemma keeps_gulp_dest dir l : keeps (gulp_dest dir l).
Proof.
  induction l as [|f l IH]; simpl; [apply keeps_ret|].
  apply keeps_bind; [apply keeps_write_out | done].
Qed.

Lemma keeps_emit_assets names content : keeps (emit_assets names content).
Proof.
  induction names as [|n names IH]; simpl; [apply keeps_ret|].
  apply keeps_bind; [|done].
  destruct (content n); [apply keeps_write_out | apply keeps_ret].
Qed.

Lemma keeps_compiler_run c : keeps (compiler_run T c).
Proof.
  apply keeps_bind; [apply keeps_emit|]. intros _ fs.
  destruct (webpack_compile T (options c) (files fs)) as [err|content].
  - by apply keeps_throw.
  - apply keeps_emit_assets.
Qed.

Lemma keeps_read_deps : keeps (read_deps T P).
Proof.
  apply keeps_bind; [apply keeps_readFileSync|]. intros raw.
  apply keeps_of_sum.
Qed.

Lemma keeps_buildMainHtml : keeps (buildMainHtml T P).
Proof. apply keeps_gulp_src. intros srcs. apply keeps_gulp_dest. Qed.

Lemma keeps_buildAppAssets : keeps (buildAppAssets T P).
Proof. apply keeps_gulp_src. intros srcs. apply keeps_gulp_dest. Qed.

Lemma keeps_buildDevAppConfig : keeps (buildDevAppConfig T P).
Proof.
  unfold buildDevAppConfig. destruct (negb _); [apply keeps_ret|].
  apply keeps_try.
  - apply keeps_bind; [apply keeps_readFileSync|]. intros raw.
    apply keeps_bind; [apply keeps_of_sum|]. intros config.
    apply keeps_writeFileSync.
  - intros m. apply keeps_bind; [apply keeps_emit|]. intros _.
    apply keeps_emit.
Qed.

Lemma keeps_buildVendorStyles : keeps (buildVendorStyles T P).
Proof.
  apply keeps_bind; [apply keeps_read_deps|]. intros deps.
  apply keeps_gulp_src. intros srcs. apply keeps_gulp_dest.
Qed.

Lemma keeps_buildVendorFonts : keeps (buildVendorFonts T P).
Proof.
  apply keeps_bind; [apply keeps_read_deps|]. intros deps.
  apply keeps_gulp_src. intros srcs. apply keeps_gulp_dest.
Qed.

Lemma keeps_test : keeps (test T P).
Proof. apply keeps_unchanged. intros fs. by rewrite test_always_ends. Qed.

Lemma keeps_lint : keeps (lint T P).
Proof. apply keeps_unchanged. intros fs. by rewrite lint_run. Qed.

Lemma keeps_setupWatchers : keeps (setupWatchers P).
Proof.
  apply keeps_unchanged. intros fs. unfold setupWatchers.
  by rewrite gulp_watch_all_run.
Qed.

Lemma keeps_gulp_default : keeps (gulp_default T).
Proof.
  apply keeps_unchanged. intros fs. unfold gulp_default.
  by rewrite gutil_log_all_run.
Qed.

Variable bas : Task.
Hypothesis keeps_bas : keeps bas.

Lemma keeps_leaves n t : proGulp_leaves T P bas !! n = Some t -> keeps t.
Proof.
  intros H. unfold proGulp_leaves in H. registry_cases H.
  - apply keeps_buildVendorFonts.
  - apply keeps_buildVendorStyles.
  - apply keeps_buildDevAppConfig.
  - apply keeps_buildAppAssets.
  - apply keeps_bas.
  - apply keeps_buildMainHtml.
Qed.

Lemma keeps_build : keeps (build T P bas).
Proof. apply keeps_parallel, keeps_leaves. Qed.

Lemma keeps_tasks n t : proGulp_tasks T P bas !! n = Some t -> keeps t.
Proof.
  intros H. unfold proGulp_tasks in H.
  apply lookup_insert_Some in H as [[_ <-]|[_ H]]; [apply keeps_setupWatchers|].
  apply lookup_insert_Some in H as [[_ <-]|[_ H]]; [apply keeps_emit|].
  apply lookup_insert_Some in H as [[_ <-]|[_ H]]; [apply keeps_test|].
  apply lookup_insert_Some in H as [[_ <-]|[_ H]]; [apply keeps_build|].
  by eapply keeps_leaves.
Qed.

Lemma keeps_dev : keeps (dev T P bas).
Proof. apply keeps_sequence, keeps_tasks. Qed.

Lemma keeps_gulp_tasks n t : gulp_tasks T P bas !! n = Some t -> keeps t.
Proof.
  intros H. unfold gulp_tasks in H. registry_cases H.
  - apply keeps_gulp_default.
  - apply keeps_dev.
  - apply keeps_call. intros t. apply keeps_tasks.
  - apply keeps_lint.
  - apply keeps_call. intros t. apply keeps_tasks.
Qed.

End Keeps.

(** ** Nothing outside the build directory *)

Lemma group_event_no_write t :
  Forall (group_event (fun _ => False)) t -> writes t = [].
Proof.
  induction 1 as [|e t He _ IH]; [done|].
  unfold writes in *. by destruct e.
Qed.

Lemma group_event_impl (W W' : string -> Prop) e :
  (forall p, W p -> W' p) -> group_event W e -> group_event W' e.
Proof. intros H. destruct e; simpl; auto. Qed.

Section Outside.
Context (T : Tools) (P : Process).

Lemma iife_group_events W :
  all_events (group_event W) (buildAllScripts_iife T P).
Proof.
  apply all_events_bind.
  { eapply all_events_impl; [apply leaf_group_event|]. apply read_deps_events. }
  intros deps. apply all_events_bind; [by apply all_events_mkdirp_sync|].
  intros _. apply all_events_bind.
  - apply all_events_bind; [by apply all_events_emit|]. intros _.
    apply all_events_ret.
  - intros c. apply all_events_ret.
Qed.

Lemma keeps_iife : keeps (buildAllScripts_iife T P).
Proof.
  apply keeps_bind; [apply keeps_read_deps|]. intros deps.
  apply keeps_bind; [apply keeps_mkdirp_sync|]. intros _.
  apply keeps_bind.
  - apply keeps_bind; [apply keeps_emit|]. intros _. apply keeps_ret.
  - intros c. apply keeps_ret.
Qed.

(** Loading the gulpfile, whether it succeeds or not, changes no file and
    removes no directory. *)
Lemma gulpfile_files fs0 :
  files (final (gulpfile T P fs0)) = files fs0 /\
  dirs fs0 ⊆ dirs (final (gulpfile T P fs0)).
Proof.
  assert (keeps (gulpfile T P)) as K.
  { apply keeps_bind; [apply keeps_iife|]. intros b. apply keeps_ret. }
  assert (all_events (group_event (fun _ => False)) (gulpfile T P)) as E.
  { apply all_events_bind; [apply iife_group_events|]. intros b.
    apply all_events_ret. }
  destruct (K fs0) as (K1 & _ & K3). split; [|done].
  apply map_eq. intros p. apply K1.
  rewrite (group_event_no_write _ (E fs0)). apply not_elem_of_nil.
Qed.

Variable deps : Deps.

Let buildAllScripts : Task :=
  promisify (compiler_run T (mkCompiler (webpackConfig P deps))).

Lemma gulp_tasks_layout n t :
  gulp_tasks T P buildAllScripts !! n = Some t ->
  all_events (group_event (layout P)) t.
Proof.
  intros H. unfold gulp_tasks in H. registry_cases H.
  - intros fs. unfold gulp_default. rewrite gutil_log_all_run.
    apply Forall_forall. by intros e [l [-> _]]%list_elem_of_fmap.
  - apply all_events_sequence; [by intros []|]. apply (tasks_layout T P deps).
  - apply all_events_call; [by intros []|]. apply (tasks_layout T P deps).
  - intros fs. rewrite lint_run. unfold events, lint_report. simpl.
    destruct (lint_results _ _); [constructor|].
    destruct (String.eqb _ _); by repeat constructor.
  - apply all_events_call; [by intros []|]. apply (tasks_layout T P deps).
Qed.

End Outside.

(** The outcome of the command line in terms of the gulpfile's load and of
    the task found. *)
Lemma gulp_cli_final T P task fs0 :
  (gulp_cli T P task fs0).1.2 = final (gulpfile T P fs0) \/
  exists deps fn,
    gulp_tasks T P (promisify (compiler_run T (mkCompiler (webpackConfig P deps))))
      !! task = Some fn /\
    (gulp_cli T P task fs0).1.2 = final (fn (final (gulpfile T P fs0))).
Proof.
  unfold gulp_cli, final.
  destruct (gulpfile T P fs0) as [[[reg|m] fs1] t1] eqn:Hload; [|by left].
  destruct (gulpfile_value T P _ _ _ _ Hload) as (bas & Hbas & ->).
  apply iife_value in Hbas as (raw & deps & _ & _ & -> & _ & _).
  destruct (gulp_tasks _ _ _ !! task) as [fn|] eqn:Hfn; [|by left].
  right. exists deps, fn. split; [done|]. simpl.
  by destruct (fn fs1) as [[[[]|m] fs2] t2].
Qed.

(** X1: whatever task is named on the command line, and whatever the tools
    do, a file outside the build directory is after the run what it was
    before: present with the same contents, or absent. *)
Theorem X1_outside_build_untouched (T : Tools) (P : Process) (task : string)
    (fs0 : FS) (p : string) :
  String.prefix (buildDir P +:+ "/") p = false ->
  files (gulp_cli T P task fs0).1.2 !! p = files fs0 !! p.
Proof.
  intros Hp. destruct (gulpfile_files T P fs0) as [Hload _].
  destruct (gulp_cli_final T P task fs0) as [->|(deps & fn & Hfn & ->)];
    [by rewrite Hload|].
  rewrite <- Hload.
  destruct (keeps_gulp_tasks T P _ (keeps_compiler_run T _) _ _ Hfn
              (final (gulpfile T P fs0))) as (K & _ & _).
  apply K. intros Hin.
  pose proof (gulp_tasks_layout T P deps _ _ Hfn (final (gulpfile T P fs0)))
    as E.
  apply writes_Forall in E. rewrite Forall_forall in E.
  apply E, layout_under_build in Hin. congruence.
Qed.

Lemma X1_outside_build_untouched_witness :
  files (gulp_cli Sample.tools Sample.proc "build" Sample.project).1.2
    !! "/proj/app/main.jsx" = Some "render();".
Proof.
  rewrite (X1_outside_build_untouched Sample.tools Sample.proc "build"
             Sample.project "/proj/app/main.jsx"); [|reflexivity].
  by vm_compute.
Defined.

(** X2: no run of the command line removes a file or a directory. *)
Theorem X2_nothing_removed (T : Tools) (P : Process) (task : string)
    (fs0 : FS) :
  dom (files fs0) ⊆ dom (files (gulp_cli T P task fs0).1.2) /\
  dirs fs0 ⊆ dirs (gulp_cli T P task fs0).1.2.
Proof.
  destruct (gulpfile_files T P fs0) as [Hfiles Hdirs].
  destruct (gulp_cli_final T P task fs0) as [->|(deps & fn & Hfn & ->)];
    [by rewrite Hfiles|].
  destruct (keeps_gulp_tasks T P _ (keeps_compiler_run T _) _ _ Hfn
              (final (gulpfile T P fs0))) as (_ & K2 & K3).
  rewrite Hfiles in K2. split; [done | by etrans].
Qed.

(** ** What the stream tasks write *)

Lemma append_inj (a b c : string) : a +:+ b = a +:+ c -> b = c.
Proof.
  induction a as [|x a IH]; [done|]. rewrite !append_cons.
  intros [= H]. by apply IH.
Qed.

Lemma write_out_lookup path data fs :
  result (write_out path data fs) = Val tt ->
  files (final (write_out path data fs)) !! path = Some data.
Proof.
  unfold write_out. rewrite result_bind, final_bind.
  destruct (result _) as [[]|m]; [|done].
  set (fs1 := final _). unfold writeFileSync, result, final.
  destruct (bool_decide _); [done|]. destruct (parent_exists _ _); [|done].
  intros _. apply lookup_insert_eq.
Qed.

Section Copies.
Context (T : Tools) (P : Process).

Lemma gulp_dest_writes dir l fs p :
  p ∈ writes (events (gulp_dest dir l fs)) ->
  exists g, g ∈ l /\ p = dir +:+ relative g.
Proof.
  intros Hp.
  pose proof (leaf_writes _ _ fs
    (gulp_dest_events (fun p => exists g, g ∈ l /\ p = dir +:+ relative g)
       dir l (fun f Hf => ex_intro _ f (conj Hf eq_refl)))) as H.
  rewrite Forall_forall in H. by apply H.
Qed.

(** [gulp.dest] copies: after a stream of files with distinct relative
    paths has been written without error, each file is found below the
    directory at its relative path, with its contents. *)
Lemma gulp_dest_copies dir l fs :
  result (gulp_dest dir l fs) = Val tt ->
  NoDup (relative <$> l) ->
  forall f, f ∈ l ->
    files (final (gulp_dest dir l fs)) !! (dir +:+ relative f)
    = Some (contents f).
Proof.
  revert fs. induction l as [|g l IH]; intros fs Hres Hnd f Hf.
  { by apply elem_of_nil in Hf. }
  simpl in Hres |- *. rewrite result_bind in Hres. rewrite final_bind.
  destruct (result (write_out _ _ fs)) as [[]|m] eqn:Hw; [|done].
  apply NoDup_cons in Hnd as [Hg Hnd].
  apply elem_of_cons in Hf as [->|Hf]; [|by apply IH].
  destruct (keeps_gulp_dest dir l (final (write_out (dir +:+ relative g)
              (contents g) fs))) as (K & _ & _).
  rewrite K; [by apply write_out_lookup|].
  intros (h & Hh & Heq)%gulp_dest_writes. apply append_inj in Heq.
  apply Hg. rewrite Heq. apply list_elem_of_fmap. by exists h.
Qed.

(** With nothing to write the stream ends at once. *)
Lemma gulp_dest_nil dir fs : gulp_dest dir [] fs = (Val tt, fs, []).
Proof. reflexivity. Qed.

End Copies.

(** X3: [buildAppAssets] copies.  When the task completes, every file the
    glob [app/assets/**/*] matched is found under [build/_assets/] at its
    path relative to [app/assets], with the same contents, provided the
    relative paths are distinct. *)
Theorem X3_assets_copied (T : Tools) (P : Process) (fs : FS) :
  let srcs := glob T [appDir P +:+ "/assets/**/*"] (files fs) in
  result (buildAppAssets T P fs) = Val tt ->
  NoDup (relative <$> srcs) ->
  forall f, f ∈ srcs ->
    files (final (buildAppAssets T P fs))
      !! (buildDir P +:+ "/_assets/" +:+ relative f) = Some (contents f).
Proof.
  intros srcs Hres Hnd f Hf. rewrite <- append_assoc.
  unfold buildAppAssets in *. rewrite result_bind in Hres. rewrite final_bind.
  simpl in Hres |- *. by apply gulp_dest_copies.
Qed.

Lemma X3_assets_copied_witness :
  files (final (buildAppAssets Sample.tools Sample.proc Sample.loaded))
    !! "/proj/build/_assets/img/logo.png" = Some "PNG".
Proof.
  apply (X3_assets_copied Sample.tools Sample.proc Sample.loaded
           ltac:(by vm_compute)
           ltac:(vm_compute; apply NoDup_singleton)
           (mkVinyl "img/logo.png" "PNG")).
  vm_compute. left.
Defined.

Lemma gulp_dest_output dir l : all_events output_event (gulp_dest dir l).
Proof.
  induction l as [|f l IH]; simpl; [apply all_events_ret|].
  apply all_events_bind; [by apply all_events_write_out | done].
Qed.

(** When every file of the stream has the same relative path, the last one
    written is the one that stays. *)
Lemma gulp_dest_last dir r l fs f :
  Forall (fun g => relative g = r) l ->
  result (gulp_dest dir l fs) = Val tt ->
  last l = Some f ->
  files (final (gulp_dest dir l fs)) !! (dir +:+ r) = Some (contents f).
Proof.
  revert fs. induction l as [|g l IH]; intros fs Hall Hres Hlast; [done|].
  apply Forall_cons in Hall as [Hg Hall].
  simpl in Hres |- *. rewrite result_bind in Hres. rewrite final_bind.
  destruct (result (write_out _ _ fs)) as [[]|m] eqn:Hw; [|done].
  destruct l as [|h l].
  - injection Hlast as <-. simpl. rewrite <- Hg. by apply write_out_lookup.
  - by apply IH.
Qed.

(** X4: [buildMainHtml] renames.  When the glob for [app/main.html] matches
    nothing, the task completes without writing anything.  When it
    completes after matching some files, [build/index.html] holds the
    contents of the last one matched, whatever that file's own name. *)
Theorem X4_index_html (T : Tools) (P : Process) (fs : FS) :
  let srcs := glob T [appDir P +:+ "/main.html"] (files fs) in
  (srcs = [] -> buildMainHtml T P fs = (Val tt, fs, [])) /\
  (forall f, last srcs = Some f ->
     result (buildMainHtml T P fs) = Val tt ->
     files (final (buildMainHtml T P fs)) !! (buildDir P +:+ "/index.html")
     = Some (contents f)).
Proof.
  intros srcs. split.
  - intros H. unfold buildMainHtml, io_bind, gulp_src. fold srcs.
    by rewrite H.
  - intros f Hlast Hres. unfold buildMainHtml in *.
    rewrite result_bind in Hres. rewrite final_bind. simpl in Hres |- *.
    fold srcs in Hres |- *.
    change (buildDir P +:+ "/index.html")
      with (buildDir P +:+ ("/" +:+ "index.html")).
    rewrite <- append_assoc.
    apply gulp_dest_last with (f := rename "index.html" f); [|done|].
    + apply Forall_forall. by intros g [h [-> _]]%list_elem_of_fmap.
    + rewrite fmap_last. by rewrite Hlast.
Qed.

Lemma X4_index_html_witness :
  files (final (buildMainHtml Sample.tools Sample.proc Sample.loaded))
    !! "/proj/build/index.html" = Some "<html></html>".
Proof.
  destruct (X4_index_html Sample.tools Sample.proc Sample.loaded) as [_ H].
  apply (H (mkVinyl "main.html" "<html></html>")); by vm_compute.
Defined.

(** ** The vendor tasks and the manifest *)

Section Vendor.
Context (T : Tools) (P : Process).

Lemma read_deps_run fs :
  read_deps T P fs =
  (match files fs !! depsPath P with
   | None => Throw ("ENOENT: no such file or directory, open '"
                    +:+ depsPath P +:+ "'")
   | Some raw => match JSON_parse T raw with
                 | inl m => Throw m
                 | inr deps => Val deps
                 end
   end, fs, [EvRead (depsPath P)]).
Proof.
  unfold read_deps, io_bind, readFileSync, io_of_sum, io_ret, io_throw.
  destruct (files fs !! depsPath P) as [raw|]; [|done].
  by destruct (JSON_parse T raw).
Qed.

Lemma reads_output t : Forall output_event t -> reads t = [].
Proof. by intros (H & _ & _)%output_events_quiet. Qed.

Lemma reads_after_read_deps {A} (k : Deps -> IO A) fs :
  (forall deps, all_events output_event (k deps)) ->
  reads (events (io_bind (read_deps T P) k fs)) = [depsPath P].
Proof.
  intros Hk. rewrite events_bind. unfold reads. rewrite omap_app.
  rewrite read_deps_run. unfold result, final, events at 1. simpl.
  destruct (files fs !! depsPath P) as [raw|]; [|done].
  destruct (JSON_parse T raw) as [m|deps]; [done|].
  fold (reads (events (k deps fs))). by rewrite (reads_output _ (Hk deps fs)).
Qed.

Lemma vendor_task_fails {A} (k : Deps -> IO A) fs m :
  result (read_deps T P fs) = Throw m ->
  io_bind (read_deps T P) k fs = (Throw m, fs, [EvRead (depsPath P)]).
Proof.
  unfold io_bind. rewrite read_deps_run. unfold result. simpl.
  destruct (files fs !! depsPath P) as [raw|]; [|by intros [= ->]].
  destruct (JSON_parse T raw) as [m'|deps]; [by intros [= ->] | done].
Qed.

End Vendor.

(** X5: the two vendor tasks read the manifest anew on every run, once, and
    nothing else through [fs.readFileSync].  When deps.json is missing or
    does not parse, each task fails with that error before it writes
    anything: the file system is as it was. *)
Theorem X5_vendor_tasks_read_manifest (T : Tools) (P : Process) (fs : FS) :
  reads (events (buildVendorStyles T P fs)) = [depsPath P] /\
  reads (events (buildVendorFonts T P fs)) = [depsPath P] /\
  (files fs !! depsPath P = None ->
   let m := "ENOENT: no such file or directory, open '" +:+ depsPath P +:+ "'" in
   buildVendorStyles T P fs = (Throw m, fs, [EvRead (depsPath P)]) /\
   buildVendorFonts T P fs = (Throw m, fs, [EvRead (depsPath P)])) /\
  (forall raw m,
     files fs !! depsPath P = Some raw -> JSON_parse T raw = inl m ->
     buildVendorStyles T P fs = (Throw m, fs, [EvRead (depsPath P)]) /\
     buildVendorFonts T P fs = (Throw m, fs, [EvRead (depsPath P)])).
Proof.
  split_and!.
  - apply reads_after_read_deps. intros deps.
    apply all_events_gulp_src. intros srcs. apply gulp_dest_output.
  - apply reads_after_read_deps. intros deps.
    apply all_events_gulp_src. intros srcs. apply gulp_dest_output.
  - intros Hnone m. split; apply vendor_task_fails;
      rewrite read_deps_run; unfold result; simpl; by rewrite Hnone.
  - intros raw m Hraw Hparse. split; apply vendor_task_fails;
      rewrite read_deps_run; unfold result; simpl; by rewrite Hraw, Hparse.
Qed.

Lemma X5_vendor_tasks_read_manifest_witness :
  buildVendorStyles Sample.tools Sample.proc Sample.bare
  = (Throw "ENOENT: no such file or directory, open '/proj/deps.json'",
     Sample.bare, [EvRead "/proj/deps.json"]) /\
  buildVendorFonts Sample.tools Sample.proc
    (mkFS (<["/proj/deps.json" := "{"]> Sample.tree) ∅)
  = (Throw "SyntaxError: Unexpected token in JSON",
     mkFS (<["/proj/deps.json" := "{"]> Sample.tree) ∅,
     [EvRead "/proj/deps.json"]).
Proof.
  split.
  - destruct (X5_vendor_tasks_read_manifest Sample.tools Sample.proc
                Sample.bare) as (_ & _ & H & _).
    destruct H as [H _]; [by vm_compute | exact H].
  - destruct (X5_vendor_tasks_read_manifest Sample.tools Sample.proc
                (mkFS (<["/proj/deps.json" := "{"]> Sample.tree) ∅))
      as (_ & _ & _ & H).
    destruct (H "{" "SyntaxError: Unexpected token in JSON") as [_ H'];
      [by vm_compute | by vm_compute | exact H'].
Defined.

Lemma write_out_writes_le path data fs :
  length (writes (events (write_out path data fs))) <= 1.
Proof.
  unfold write_out. rewrite events_bind, writes_app, length_app.
  assert (writes (events (match dirname path with
                          | Some d => mkdirp_sync d
                          | None => io_ret tt
                          end fs)) = []) as ->.
  { destruct (dirname path); [|done]. unfold mkdirp_sync, events.
    by destruct (existsb _ _). }
  destruct (result _); [|simpl; lia].
  unfold writeFileSync, events. destruct (bool_decide _); [simpl; lia|].
  destruct (parent_exists _ _); simpl; lia.
Qed.

Lemma gulp_dest_writes_le dir l fs :
  length (writes (events (gulp_dest dir l fs))) <= length l.
Proof.
  revert fs. induction l as [|f l IH]; intros fs; [simpl; lia|].
  simpl. rewrite events_bind, writes_app, length_app.
  pose proof (write_out_writes_le (dir +:+ relative f) (contents f) fs).
  destruct (result _); [|simpl; lia].
  specialize (IH (final (write_out (dir +:+ relative f) (contents f) fs))).
  lia.
Qed.

Lemma writes_cons_read p t : writes (EvRead p :: t) = writes t.
Proof. reflexivity. Qed.

Lemma gulp_src_bind {A} T globs (k : list Vinyl -> IO A) fs :
  io_bind (gulp_src T globs) k fs = k (glob T globs (files fs)) fs.
Proof.
  unfold io_bind, gulp_src. by destruct (k _ fs) as [[r fs2] t2].
Qed.

Section VendorRun.
Context (T : Tools) (P : Process).

Lemma vendor_task_run {A} (k : Deps -> IO A) fs raw deps :
  files fs !! depsPath P = Some raw ->
  JSON_parse T raw = inr deps ->
  io_bind (read_deps T P) k fs =
  (result (k deps fs), final (k deps fs),
   EvRead (depsPath P) :: events (k deps fs)).
Proof.
  intros Hraw Hdeps. unfold io_bind. rewrite read_deps_run, Hraw, Hdeps.
  unfold result, final, events. by destruct (k deps fs) as [[r fs2] t2].
Qed.

End VendorRun.

(** X6: [buildVendorStyles] concatenates.  With a manifest that parses, a
    run writes at most one file.  When the manifest's css globs match
    nothing, the task completes and writes nothing; when they match and the
    task completes, [build/_assets/css/vendor.css] holds the contents of the
    matched stylesheets, in the order matched, joined by newlines. *)
Theorem X6_vendor_css_concatenated (T : Tools) (P : Process) (fs : FS)
    (raw : string) (deps : Deps) :
  files fs !! depsPath P = Some raw ->
  JSON_parse T raw = inr deps ->
  let srcs := glob T (deps_css deps) (files fs) in
  length (writes (events (buildVendorStyles T P fs))) <= 1 /\
  (srcs = [] ->
   buildVendorStyles T P fs = (Val tt, fs, [EvRead (depsPath P)])) /\
  (srcs <> [] ->
   result (buildVendorStyles T P fs) = Val tt ->
   files (final (buildVendorStyles T P fs))
     !! (buildDir P +:+ "/_assets/css/vendor.css")
   = Some (String.concat (String "010" "") (map contents srcs))).
Proof.
  intros Hraw Hdeps srcs. unfold buildVendorStyles.
  rewrite (vendor_task_run T P _ fs raw deps Hraw Hdeps).
  rewrite gulp_src_bind. fold srcs.
  unfold result, final, events. cbn [fst snd]. split_and!.
  - rewrite writes_cons_read.
    etrans; [apply gulp_dest_writes_le|]. destruct srcs; simpl; lia.
  - by intros ->.
  - intros Hne Hres.
    change (buildDir P +:+ "/_assets/css/vendor.css")
      with (buildDir P +:+ ("/_assets/css/" +:+ "vendor.css")).
    rewrite <- append_assoc.
    destruct srcs as [|f rest]; [done|].
    by apply (gulp_dest_copies (buildDir P +:+ "/_assets/css/") _ fs Hres
                (NoDup_singleton _)
                (mkVinyl "vendor.css" _)); left.
Qed.

Lemma X6_vendor_css_concatenated_witness :
  files (final (buildVendorStyles Sample.tools Sample.proc Sample.loaded))
    !! "/proj/build/_assets/css/vendor.css" = Some "body {}".
Proof.
  destruct (X6_vendor_css_concatenated Sample.tools Sample.proc Sample.loaded
              Sample.manifest Sample.deps ltac:(by vm_compute)
              ltac:(by vm_compute)) as (_ & _ & H).
  etrans; [apply H; by vm_compute | by vm_compute].
Defined.

(** X7: [buildVendorFonts] copies.  With a manifest that parses, when the
    task completes every file the manifest's font globs matched is found
    under [build/_assets/fonts/] at its relative path, with the same
    contents, provided the relative paths are distinct. *)
Theorem X7_fonts_copied (T : Tools) (P : Process) (fs : FS)
    (raw : string) (deps : Deps) :
  files fs !! depsPath P = Some raw ->
  JSON_parse T raw = inr deps ->
  let srcs := glob T (deps_fonts deps) (files fs) in
  result (buildVendorFonts T P fs) = Val tt ->
  NoDup (relative <$> srcs) ->
  forall f, f ∈ srcs ->
    files (final (buildVendorFonts T P fs))
      !! (buildDir P +:+ "/_assets/fonts/" +:+ relative f) = Some (contents f).
Proof.
  intros Hraw Hdeps srcs. unfold buildVendorFonts.
  rewrite (vendor_task_run T P _ fs raw deps Hraw Hdeps).
  rewrite gulp_src_bind. fold srcs.
  unfold result, final. cbn [fst snd]. intros Hres Hnd f Hf.
  rewrite <- append_assoc. by apply gulp_dest_copies.
Qed.

Lemma X7_fonts_copied_witness :
  files (final (buildVendorFonts Sample.tools Sample.proc Sample.loaded))
    !! "/proj/build/_assets/fonts/glyphs.woff" = Some "WOFF".
Proof.
  apply (X7_fonts_copied Sample.tools Sample.proc Sample.loaded
           Sample.manifest Sample.deps ltac:(by vm_compute)
           ltac:(by vm_compute) ltac:(by vm_compute)
           ltac:(vm_compute; apply NoDup_singleton)
           (mkVinyl "glyphs.woff" "WOFF")).
  vm_compute. left.
Defined.

(** ** The scripts *)

Lemma emit_assets_writes names content fs p :
  p ∈ writes (events (emit_assets names content fs)) -> p ∈ names.
Proof.
  intros Hp.
  pose proof (leaf_writes _ _ fs
    (emit_assets_events (fun p => p ∈ names) names content
       (fun n Hn => Hn))) as H.
  rewrite Forall_forall in H. by apply H.
Qed.

Lemma emit_assets_copies names content fs :
  result (emit_assets names content fs) = Val tt ->
  NoDup names ->
  forall n c, n ∈ names -> content n = Some c ->
    files (final (emit_assets names content fs)) !! n = Some c.
Proof.
  revert fs. induction names as [|g names IH]; intros fs Hres Hnd n c Hn Hc.
  { by apply elem_of_nil in Hn. }
  simpl in Hres |- *. rewrite result_bind in Hres. rewrite final_bind.
  destruct (result (match content g with _ => _ end fs)) as [[]|m] eqn:Hw;
    [|done].
  apply NoDup_cons in Hnd as [Hg Hnd].
  apply elem_of_cons in Hn as [->|Hn]; [|by eapply IH].
  rewrite Hc in Hw |- *.
  destruct (keeps_emit_assets names content
              (final (write_out g c fs))) as (K & _ & _).
  rewrite K; [by apply write_out_lookup|].
  by intros Hin%emit_assets_writes.
Qed.

Lemma write_out_writes path data fs p :
  p ∈ writes (events (write_out path data fs)) -> p = path.
Proof.
  intros Hp.
  pose proof (leaf_writes _ _ fs
    (all_events_write_out (leaf_event (fun p => p = path)) path data
       (fun _ => I) eq_refl)) as H.
  rewrite Forall_forall in H. by apply H.
Qed.

(** Only what the compilation produced is written. *)
Lemma emit_assets_written names content fs p :
  p ∈ writes (events (emit_assets names content fs)) ->
  p ∈ names /\ is_Some (content p).
Proof.
  revert fs. induction names as [|g names IH]; intros fs Hp.
  { by apply elem_of_nil in Hp. }
  simpl in Hp. rewrite events_bind, writes_app in Hp.
  apply elem_of_app in Hp as [Hp|Hp].
  - destruct (content g) as [d|] eqn:Hg; [|by apply elem_of_nil in Hp].
    apply write_out_writes in Hp as ->. split; [by left | by rewrite Hg].
  - destruct (result _); [|by apply elem_of_nil in Hp].
    apply IH in Hp as [Hin Hsome]. split; [by right | done].
Qed.

Lemma emitted_assets_NoDup P deps : NoDup (emitted_assets (webpackConfig P deps)).
Proof.
  rewrite emitted_assets_webpackConfig, !append_assoc.
  repeat (apply NoDup_cons; split);
    [ | | | | apply NoDup_nil_2 ];
    intros H; repeat (apply elem_of_cons in H as [H|H]);
    try (by apply elem_of_nil in H); by apply append_inj in H.
Qed.

(** X8: the outcome of [buildAllScripts].  When webpack reports a fatal
    error the task is rejected with that error and the file system is as it
    was.  When webpack compiles, with or without module errors, the task
    writes only assets that the compilation produced, among [app.js],
    [vendor.js] and their two source maps; and when the task completes, each
    of these that the compilation produced is in [build/_assets/js], holding
    what webpack produced for it. *)
Theorem X8_scripts_outcome (T : Tools) (P : Process) (fs0 fs1 : FS)
    (bas : Task) (t0 : list IOEvent) (raw : string) (deps : Deps) :
  buildAllScripts_iife T P fs0 = (Val bas, fs1, t0) ->
  files fs0 !! depsPath P = Some raw ->
  JSON_parse T raw = inr deps ->
  forall fs,
    (forall err,
       webpack_compile T (webpackConfig P deps) (files fs) = inl err ->
       bas fs = (Throw err, fs, [EvWebpackRun (webpackConfig P deps)])) /\
    (forall content,
       webpack_compile T (webpackConfig P deps) (files fs) = inr content ->
       (forall n, n ∈ writes (events (bas fs)) ->
          n ∈ [buildDir P +:+ "/_assets/js/app.js";
               buildDir P +:+ "/_assets/js/vendor.js";
               buildDir P +:+ "/_assets/js/app.js.map";
               buildDir P +:+ "/_assets/js/vendor.js.map"] /\
          is_Some (content n)) /\
       (result (bas fs) = Val tt ->
        forall n c,
          n ∈ [buildDir P +:+ "/_assets/js/app.js";
               buildDir P +:+ "/_assets/js/vendor.js";
               buildDir P +:+ "/_assets/js/app.js.map";
               buildDir P +:+ "/_assets/js/vendor.js.map"] ->
          content n = Some c ->
          files (final (bas fs)) !! n = Some c)).
Proof.
  intros (raw' & deps' & Hraw' & Hdeps' & -> & _ & _)%iife_value Hraw Hdeps fs.
  rewrite Hraw in Hraw'. injection Hraw' as <-.
  rewrite Hdeps in Hdeps'. injection Hdeps' as <-.
  unfold promisify, compiler_run, io_bind, io_emit. cbn [options].
  split.
  - intros err ->. reflexivity.
  - intros content ->.
    pose proof (emit_assets_copies
                  (emitted_assets (webpackConfig P deps)) content fs) as C.
    pose proof (emit_assets_written
                  (emitted_assets (webpackConfig P deps)) content fs) as W.
    unfold result, final, events in *.
    destruct (emit_assets _ content fs) as [[r fs2] t2]. simpl in *.
    rewrite emitted_assets_webpackConfig, !append_assoc in W.
    split; [exact W|].
    intros Hres n c Hn Hc.
    apply C; [done | apply emitted_assets_NoDup | | done].
    by rewrite emitted_assets_webpackConfig, !append_assoc.
Qed.

Lemma X8_scripts_outcome_witness :
  files (final (Sample.buildAllScripts Sample.loaded))
    !! "/proj/build/_assets/js/app.js.map"
  = Some "/* app.js.map */ render();".
Proof.
  destruct (X8_scripts_outcome Sample.tools Sample.proc Sample.project
              Sample.loaded Sample.buildAllScripts
              (events (buildAllScripts_iife Sample.tools Sample.proc
                         Sample.project))
              Sample.manifest Sample.deps eq_refl ltac:(by vm_compute)
              ltac:(by vm_compute) Sample.loaded) as [_ H].
  destruct (H (fun asset => Some ("/* " +:+ Sample.basename asset +:+ " */ "
                                  +:+ "render();")) ltac:(by vm_compute))
    as [_ H'].
  apply H'.
  - by vm_compute.
  - vm_compute. right. right. left.
  - reflexivity.
Defined.

(** ** The dev sequence *)

Lemma watches_app a b : watches (a ++ b) = watches a ++ watches b.
Proof. apply omap_app. Qed.

Lemma watches_bindings bs :
  watches (map (fun b : list string * TaskRef => EvWatch b.1 b.2) bs) = bs.
Proof.
  induction bs as [|[g b] bs IH]; [done|].
  simpl. unfold watches in *. simpl. by rewrite IH.
Qed.

Lemma leaf_no_watch W t : Forall (leaf_event W) t -> watches t = [].
Proof.
  induction 1 as [|e t He _ IH]; [done|].
  unfold watches in *. by destruct e.
Qed.

Lemma group_no_watch t :
  Forall (fun e => match e with EvWatch _ _ => False | _ => True end) t ->
  watches t = [].
Proof.
  induction 1 as [|e t He _ IH]; [done|].
  unfold watches in *. by destruct e.
Qed.

Lemma build_no_watch T P deps fs :
  watches (events (build T P
     (promisify (compiler_run T (mkCompiler (webpackConfig P deps)))) fs)) = [].
Proof.
  apply group_no_watch. revert fs.
  apply all_events_parallel; [by intros []|].
  intros n t Hn. eapply all_events_impl; [|by eapply leaves_layout].
  intros e He. by destruct e.
Qed.

(** X9: [dev] stands or falls with its initial build.  The outcome and the
    file system of [dev] are those of the build: a failing test suite does
    not fail it.  When the build fails nothing else happens: no test run, no
    dev server, no watcher.  When it succeeds the six watchers of the
    gulpfile are registered, in the order of the source. *)
Theorem X9_dev_follows_build (T : Tools) (P : Process) (fs0 fs1 : FS)
    (bas : Task) (t0 : list IOEvent) :
  buildAllScripts_iife T P fs0 = (Val bas, fs1, t0) ->
  forall fs,
    result (dev T P bas fs) = result (build T P bas fs) /\
    final (dev T P bas fs) = final (build T P bas fs) /\
    (forall m, result (build T P bas fs) = Throw m ->
       events (dev T P bas fs) =
         EvTaskStart "build" :: events (build T P bas fs)
           ++ [EvTaskError "build" m]) /\
    (result (build T P bas fs) = Val tt ->
       watches (events (dev T P bas fs)) = watch_bindings P /\
       length (watches (events (dev T P bas fs))) = 6).
Proof.
  intros (raw & deps & _ & _ & -> & _ & _)%iife_value fs.
  pose proof (build_no_watch T P deps fs) as Hw.
  rewrite dev_run. unfold result, final, events in *.
  destruct (build T P _ fs) as [[[[]|m] fsb] tb]; cbn [fst snd] in *.
  - split_and!; try done. intros _.
    assert (watches (dev_trace P tb) = watch_bindings P) as ->; [|done].
    unfold dev_trace.
    change (EvTaskStart "build" :: tb ++ [EvTaskEnd "build"])
      with ([EvTaskStart "build"] ++ tb ++ [EvTaskEnd "build"]).
    rewrite !watches_app, Hw, watches_bindings. simpl.
    by rewrite ?app_nil_r.
  - split_and!; try done. by intros m' [= ->].
Qed.

Lemma X9_dev_follows_build_witness :
  length (watches (events (dev Sample.tools Sample.proc Sample.buildAllScripts
                               Sample.loaded))) = 6 /\
  events (dev Sample.tools Sample.proc Sample.buildAllScripts
              Sample.manifest_lost)
  = EvTaskStart "build"
    :: events (build Sample.tools Sample.proc Sample.buildAllScripts
                     Sample.manifest_lost)
    ++ [EvTaskError "build" Sample.manifest_lost_message].
Proof.
  split.
  - destruct (X9_dev_follows_build Sample.tools Sample.proc Sample.project
                Sample.loaded Sample.buildAllScripts
                (events (buildAllScripts_iife Sample.tools Sample.proc
                           Sample.project))
                eq_refl Sample.loaded) as (_ & _ & _ & H).
    apply H. by vm_compute.
  - destruct (X9_dev_follows_build Sample.tools Sample.proc Sample.project
                Sample.loaded Sample.buildAllScripts
                (events (buildAllScripts_iife Sample.tools Sample.proc
                           Sample.project))
                eq_refl Sample.manifest_lost) as (_ & _ & H & _).
    apply H. by vm_compute.
Defined.

(** ** The linter, again *)

(** X10: [lint] only reads and reports.  Once the gulpfile has loaded, a run
    of lint leaves the file system as the load left it; the only thing the
    task does is print the formatter's report, at most once; the process
    exits with status 1 exactly when some message has severity error,
    whatever the formatter prints, and with status 0 otherwise; when no
    source file is matched nothing is printed. *)
Theorem X10_lint_verdict (T : Tools) (P : Process) (fs0 fs1 : FS)
    (reg : gmap string Task) (t1 : list IOEvent) :
  gulpfile T P fs0 = (Val reg, fs1, t1) ->
  let results := lint_results T (glob T (lint_srcs P) (files fs1)) in
  (gulp_cli T P "lint" fs0).1.2 = fs1 /\
  ((gulp_cli T P "lint" fs0).1.1 = 1%Z <-> has_error results) /\
  ((gulp_cli T P "lint" fs0).1.1 = 0%Z <-> ~ has_error results) /\
  final (lint T P fs1) = fs1 /\
  length (events (lint T P fs1)) <= 1 /\
  Forall (fun e => e = EvConsole (eslint_formatter T results))
    (events (lint T P fs1)) /\
  (results = [] -> lint T P fs1 = (Val tt, fs1, [])).
Proof.
  intros Hload results.
  destruct (gulpfile_value T P _ _ _ _ Hload) as (bas & _ & ->).
  unfold gulp_cli. rewrite Hload, gulp_tasks_lint, !lint_run. fold results.
  unfold eslint_failAfterError, result, final, events, io_ret, io_throw.
  cbn [fst snd].
  pose proof (errorCount_has_error results) as E.
  split_and!.
  - by case_bool_decide.
  - case_bool_decide as Hn; simpl; split; try done; tauto.
  - case_bool_decide as Hn; simpl; split; try done; tauto.
  - done.
  - unfold lint_report. destruct results; [simpl; lia|].
    destruct (String.eqb _ _); simpl; lia.
  - unfold lint_report. destruct results; [constructor|].
    destruct (String.eqb _ _); by repeat constructor.
  - intros Hnil. rewrite Hnil. reflexivity.
Qed.

Lemma X10_lint_verdict_witness :
  (gulp_cli Sample.tools Sample.proc "lint" Sample.flawed).1.2
  = final (gulpfile Sample.tools Sample.proc Sample.flawed).
Proof.
  by destruct (X10_lint_verdict Sample.tools Sample.proc Sample.flawed
                 (final (gulpfile Sample.tools Sample.proc Sample.flawed))
                 (gulp_tasks Sample.tools Sample.proc Sample.buildAllScripts)
                 (events (gulpfile Sample.tools Sample.proc Sample.flawed))
                 eq_refl) as (H & _).
Defined.

(** ** The configuration task, again *)

Section ConfigPaths.
Context (P : Process).

Lemma env_path_not_config :
  cwd P +:+ "/.env" <> buildDir P +:+ "/app-config.js".
Proof.
  unfold buildDir. rewrite append_assoc. by intros H%append_inj.
Qed.

Lemma watched_env_not_env : appDir P +:+ "/.env" <> cwd P +:+ "/.env".
Proof.
  unfold appDir. rewrite append_assoc. by intros H%append_inj.
Qed.

Lemma watched_env_not_config :
  appDir P +:+ "/.env" <> buildDir P +:+ "/app-config.js".
Proof.
  unfold appDir, buildDir. rewrite !append_assoc. by intros H%append_inj.
Qed.

End ConfigPaths.

(** X11: [buildDevAppConfig] is idempotent.  Run again on the file system
    it has just left, it has the same outcome, prints the same lines and
    leaves that file system unchanged: app-config.js is overwritten with
    the same text, never appended to. *)
Theorem X11_config_idempotent (T : Tools) (P : Process) (fs : FS) :
  buildDevAppConfig T P (final (buildDevAppConfig T P fs))
  = buildDevAppConfig T P fs.
Proof.
  unfold buildDevAppConfig. destruct (negb _); [done|].
  unfold io_try, buildDevAppConfig_try, io_bind, readFileSync, io_of_sum,
    writeFileSync, io_ret, io_throw, final.
  destruct (files fs !! (cwd P +:+ "/.env")) as [raw|] eqn:Hraw; simpl;
    [|by rewrite Hraw].
  destruct (dotenv_parse T raw) as [m|config] eqn:Hparse; simpl;
    [by rewrite Hraw, Hparse|].
  destruct (bool_decide (_ ∈ dirs fs)) eqn:Hdir; simpl;
    [by rewrite Hraw, Hparse, Hdir|].
  destruct (parent_exists fs _) eqn:Hpar; simpl;
    [|by rewrite Hraw, Hparse, Hdir, Hpar].
  rewrite lookup_insert_ne by (intros H; by apply (env_path_not_config P)).
  rewrite Hraw, Hparse. simpl. rewrite Hdir.
  unfold parent_exists in *. simpl. rewrite Hpar.
  by rewrite insert_insert_eq.
Qed.

(** X12: the environment file the watcher watches is not the one the task
    reads.  [setupWatchers] watches [app/.env]; [buildDevAppConfig] reads
    [.env] in the working directory.  Whatever is written to [app/.env], the
    task has the same outcome, prints the same lines and generates the same
    app-config.js. *)
Theorem X12_watched_env_is_not_read (T : Tools) (P : Process) (fs : FS)
    (c : string) :
  let fs' := mkFS (<[appDir P +:+ "/.env" := c]> (files fs)) (dirs fs) in
  ([appDir P +:+ "/.env"], ProGulpTask "buildDevAppConfig") ∈ watch_bindings P /\
  appDir P +:+ "/.env" <> cwd P +:+ "/.env" /\
  result (buildDevAppConfig T P fs') = result (buildDevAppConfig T P fs) /\
  events (buildDevAppConfig T P fs') = events (buildDevAppConfig T P fs) /\
  files (final (buildDevAppConfig T P fs'))
  = <[appDir P +:+ "/.env" := c]> (files (final (buildDevAppConfig T P fs))).
Proof.
  intros fs'. split; [right; left|]. split; [apply watched_env_not_env|].
  unfold buildDevAppConfig. destruct (negb _); [done|].
  unfold io_try, buildDevAppConfig_try, io_bind, readFileSync, io_of_sum,
    writeFileSync, console_log, io_emit, io_ret, io_throw, result, events,
    final, fs', parent_exists.
  cbn [files dirs].
  rewrite lookup_insert_ne by apply watched_env_not_env.
  destruct (files fs !! (cwd P +:+ "/.env")) as [raw|];
    [|by repeat split].
  destruct (dotenv_parse T raw) as [m|config]; [by repeat split|].
  cbn [fst snd dirs].
  destruct (bool_decide (_ ∈ dirs fs)); [by repeat split|].
  destruct (match dirname _ with Some d => _ | None => true end);
    [|by repeat split].
  repeat split. cbn [fst snd files].
  apply insert_insert_ne. intros H. by apply (watched_env_not_config P).
Qed.

(** X13: the default of NODE_ENV applies only when the variable is absent.
    A value that is set is taken as it is: with any value other than
    [development], the empty string included, the configuration task
    returns at once, reading, writing and printing nothing. *)
Theorem X13_node_env_verbatim (T : Tools) (P : Process) (fs : FS) (v : string) :
  env P !! "NODE_ENV" = Some v ->
  NODE_ENV P = v /\
  (v <> "development" -> buildDevAppConfig T P fs = (Val tt, fs, [])).
Proof.
  intros H. assert (NODE_ENV P = v) as Hv by (unfold NODE_ENV; by rewrite H).
  split; [done|]. intros Hne. unfold buildDevAppConfig.
  rewrite other_mode; [done|]. by rewrite Hv.
Qed.

Lemma X13_node_env_verbatim_witness :
  NODE_ENV (mkProcess "/proj" (<["NODE_ENV" := ""]> ∅)) = "" /\
  buildDevAppConfig Sample.tools (mkProcess "/proj" (<["NODE_ENV" := ""]> ∅))
    Sample.loaded = (Val tt, Sample.loaded, []).
Proof.
  destruct (X13_node_env_verbatim Sample.tools
              (mkProcess "/proj" (<["NODE_ENV" := ""]> ∅)) Sample.loaded ""
              ltac:(by vm_compute)) as [H1 H2].
  split; [exact H1 | by apply H2].
Defined.

(** X14: every task needs the manifest.  When deps.json is missing, or is
    there but does not parse, the process exits with status 1 whatever task
    was named, the default one and lint included: the error is printed, no
    task runs, and the file system is as it was. *)
Theorem X14_no_manifest_no_task (T : Tools) (P : Process) (task : string)
    (fs0 : FS) :
  (files fs0 !! depsPath P = None ->
   gulp_cli T P task fs0 =
     (1%Z, fs0,
      [EvRead (depsPath P);
       EvConsole ("ENOENT: no such file or directory, open '"
                  +:+ depsPath P +:+ "'")])) /\
  (forall raw m,
     files fs0 !! depsPath P = Some raw -> JSON_parse T raw = inl m ->
     gulp_cli T P task fs0 =
       (1%Z, fs0, [EvRead (depsPath P); EvConsole m])).
Proof.
  split.
  - intros Hnone. unfold gulp_cli, gulpfile, buildAllScripts_iife.
    unfold io_bind at 1 2 3. rewrite read_deps_run, Hnone. reflexivity.
  - intros raw m Hraw Hparse. unfold gulp_cli, gulpfile, buildAllScripts_iife.
    unfold io_bind at 1 2 3. rewrite read_deps_run, Hraw, Hparse. reflexivity.
Qed.

Lemma X14_no_manifest_no_task_witness :
  gulp_cli Sample.tools Sample.proc "lint" Sample.bare =
    (1%Z, Sample.bare,
     [EvRead "/proj/deps.json";
      EvConsole "ENOENT: no such file or directory, open '/proj/deps.json'"]).
Proof.
  destruct (X14_no_manifest_no_task Sample.tools Sample.proc "lint"
              Sample.bare) as [H _].
  apply H. by vm_compute.
Defined.

(** ** The build group *)

Lemma started_app a b : started (a ++ b) = started a ++ started b.
Proof. apply omap_app. Qed.

Lemma unmarked_started t : Forall (fun e => ~ is_marker e) t -> started t = [].
Proof.
  induction 1 as [|e t He _ IH]; [done|].
  unfold started in *. destruct e; simpl in *; done || tauto.
Qed.

Lemma call_started (reg : gmap string Task) n t fs :
  reg !! n = Some t ->
  all_events (fun e => ~ is_marker e) t ->
  started (events (call reg n fs)) = [n].
Proof.
  intros Hn Ht. unfold call.
  destruct (reg !! n) as [t'|] eqn:E; [|done].
  injection Hn as ->.
  pose proof (unmarked_started _ (Ht fs)) as H. unfold events in *.
  destruct (t fs) as [[[[]|m] fs1] tr]; simpl in *.
  - change (EvTaskStart n :: tr ++ [EvTaskEnd n])
      with ([EvTaskStart n] ++ tr ++ [EvTaskEnd n]).
    by rewrite !started_app, H.
  - change (EvTaskStart n :: tr ++ [EvTaskError n m])
      with ([EvTaskStart n] ++ tr ++ [EvTaskError n m]).
    by rewrite !started_app, H.
Qed.

Lemma settle_all_started (reg : gmap string Task) names fs :
  (forall n, n ∈ names ->
     exists t, reg !! n = Some t /\ all_events (fun e => ~ is_marker e) t) ->
  started (settle_all reg names fs).2 = names.
Proof.
  revert fs. induction names as [|n rest IH]; intros fs H; [done|].
  simpl. destruct (H n ltac:(left)) as (t & Hn & Ht).
  pose proof (call_started reg n t fs Hn Ht) as Hc. unfold events in Hc.
  destruct (call reg n fs) as [[r fs1] t1]. simpl in *.
  assert (started (settle_all reg rest fs1).2 = rest) as Hrest.
  { apply IH. intros k Hk. apply H. by right. }
  destruct (settle_all reg rest fs1) as [[errs fs2] t2]. simpl in *.
  by rewrite started_app, Hc, Hrest.
Qed.

(** X15: a build runs all six builders.  Once the gulpfile has loaded, every
    run of [build] calls each of the six builders exactly once, in the order
    in which the gulpfile lists them, whether or not one of them fails: no
    name is unknown and no failure stops the others. *)
Theorem X15_build_calls_all (T : Tools) (P : Process) (fs0 fs1 : FS)
    (bas : Task) (t0 : list IOEvent) :
  buildAllScripts_iife T P fs0 = (Val bas, fs1, t0) ->
  forall fs,
    started (events (build T P bas fs)) =
      ["buildMainHtml"; "buildAllScripts"; "buildAppAssets";
       "buildDevAppConfig"; "buildVendorStyles"; "buildVendorFonts"].
Proof.
  intros (raw & deps & _ & _ & -> & _ & _)%iife_value fs.
  set (bas := promisify _).
  pose proof (settle_all_started (proGulp_leaves T P bas)
    ["buildMainHtml"; "buildAllScripts"; "buildAppAssets";
     "buildDevAppConfig"; "buildVendorStyles"; "buildVendorFonts"] fs) as H.
  unfold build, parallel, events.
  destruct (settle_all _ _ fs) as [[[|m errs] fs2] t2]; simpl in *;
    apply H; intros n Hn;
    (assert (is_Some (proGulp_leaves T P bas !! n)) as [t Ht];
     [ repeat (apply elem_of_cons in Hn as [->|Hn]);
       [ | | | | | | by apply elem_of_nil in Hn ];
       unfold proGulp_leaves; rewrite ?lookup_insert_ne by done;
       rewrite lookup_insert_eq; eauto
     | exists t; split; [done|];
       eapply all_events_impl; [|by eapply (leaves_layout T P deps)];
       apply leaf_event_not_marker ]).
Qed.

Lemma X15_build_calls_all_witness :
  length (started (events (build Sample.tools Sample.proc Sample.buildAllScripts
                                 Sample.manifest_lost))) = 6.
Proof.
  by rewrite (X15_build_calls_all Sample.tools Sample.proc Sample.project
                Sample.loaded Sample.buildAllScripts
                (events (buildAllScripts_iife Sample.tools Sample.proc
                           Sample.project))
                eq_refl Sample.manifest_lost).
Defined.

(** ** Loading twice *)

(** X16: loading the gulpfile is idempotent on the file system.  After a
    load that succeeded, a second load succeeds too and leaves the file
    system exactly as the first did: the directory of the scripts is
    created once and then found. *)
Theorem X16_load_idempotent (T : Tools) (P : Process) (fs0 fs1 : FS)
    (reg : gmap string Task) (t1 : list IOEvent) :
  gulpfile T P fs0 = (Val reg, fs1, t1) ->
  gulpfile T P fs1 = (Val reg, fs1, t1).
Proof.
  intros Hload.
  destruct (gulpfile_value T P _ _ _ _ Hload) as (bas & Hbas & ->).
  revert Hbas. clear Hload.
  unfold gulpfile, buildAllScripts_iife, read_deps, io_bind, readFileSync,
    mkdirp_sync, webpack, io_of_sum, io_emit, io_ret, io_throw.
  destruct (files fs0 !! depsPath P) as [raw|] eqn:Hraw; [|done].
  destruct (JSON_parse T raw) as [m|deps] eqn:Hdeps; [done|].
  destruct (existsb _ _) eqn:Hdirs; [done|]. simpl.
  intros [= <- <- <-]. simpl. rewrite Hraw, Hdeps. simpl. rewrite Hdirs.
  simpl. do 2 f_equal. f_equal.
  by rewrite <- (assoc_L (∪)), (idemp_L (∪)).
Qed.

Lemma X16_load_idempotent_witness :
  final (gulpfile Sample.tools Sample.proc Sample.loaded) = Sample.loaded.
Proof.
  by rewrite (X16_load_idempotent Sample.tools Sample.proc Sample.project
                Sample.loaded
                (gulp_tasks Sample.tools Sample.proc Sample.buildAllScripts)
                (events (gulpfile Sample.tools Sample.proc Sample.project))
                eq_refl).
Defined.

(** * What is written is left *)

Lemma lands_quiet {A} (c : IO A) :
  (forall fs, writes (events (c fs)) = []) -> lands c.
Proof. intros H fs p Hp. rewrite H in Hp. by apply elem_of_nil in Hp. Qed.

Lemma lands_ret {A} (a : A) : lands (io_ret a).
Proof. by apply lands_quiet. Qed.

Lemma lands_throw {A} m : lands (@io_throw A m).
Proof. by apply lands_quiet. Qed.

Lemma kept_is_Some {A} (c : IO A) fs p :
  keeps c -> is_Some (files fs !! p) -> is_Some (files (final (c fs)) !! p).
Proof.
  intros K H. destruct (K fs) as (_ & Hdom & _).
  apply elem_of_dom, Hdom, elem_of_dom, H.
Qed.

Lemma lands_bind {A B} (c : IO A) (k : A -> IO B) :
  lands c -> (forall a, lands (k a)) -> (forall a, keeps (k a)) ->
  lands (io_bind c k).
Proof.
  intros Hc Hk Kk fs p. rewrite events_bind, final_bind, writes_app.
  intros [Hp|Hp]%elem_of_app.
  - apply Hc in Hp. destruct (result (c fs)); [|done]. by apply kept_is_Some.
  - destruct (result (c fs)); [by apply Hk | by apply elem_of_nil in Hp].
Qed.

Lemma lands_try {A} (c : IO A) (h : string -> IO A) :
  lands c -> (forall m, lands (h m)) -> (forall m, keeps (h m)) ->
  lands (io_try c h).
Proof.
  intros Hc Hh Kh fs p. specialize (Hc fs p).
  unfold io_try, events, final in *.
  destruct (c fs) as [[[a|m] fs1] t1]; [done|]. simpl in *.
  pose proof (Hh m fs1 p) as H1. pose proof (kept_is_Some (h m) fs1 p (Kh m)) as H2.
  unfold events, final in *. destruct (h m fs1) as [[r fs2] t2]. simpl in *.
  rewrite writes_app. intros [Hp|Hp]%elem_of_app; auto.
Qed.

Lemma lands_writeFileSync path data : lands (writeFileSync path data).
Proof.
  intros fs p. unfold writeFileSync, events, final.
  destruct (bool_decide _); [by intros ?%elem_of_nil|].
  destruct (parent_exists _ _); [|by intros ?%elem_of_nil]. simpl.
  intros ->%list_elem_of_singleton. rewrite lookup_insert_eq. eauto.
Qed.

Lemma lands_write_out path data : lands (write_out path data).
Proof.
  apply lands_bind.
  - apply lands_quiet. intros fs. destruct (dirname path); [|done].
    unfold mkdirp_sync, events. by destruct (existsb _ _).
  - intros _. apply lands_writeFileSync.
  - intros _. apply keeps_writeFileSync.
Qed.

Lemma lands_gulp_dest dir l : lands (gulp_dest dir l).
Proof.
  induction l as [|f l IH]; simpl; [apply lands_ret|].
  apply lands_bind; [apply lands_write_out | done |].
  intros _. apply keeps_gulp_dest.
Qed.

Lemma lands_emit_assets names content : lands (emit_assets names content).
Proof.
  induction names as [|n names IH]; simpl; [apply lands_ret|].
  apply lands_bind; [|done|].
  - destruct (content n); [apply lands_write_out | apply lands_ret].
  - intros _. apply keeps_emit_assets.
Qed.

(** The run of a registered task through [call]. *)
Lemma call_run (reg : gmap string Task) n t fs :
  reg !! n = Some t ->
  call reg n fs =
  (match result (t fs) with Val _ => Val tt | Throw m => Throw m end,
   final (t fs),
   EvTaskStart n :: events (t fs)
     ++ [match result (t fs) with
         | Val _ => EvTaskEnd n
         | Throw m => EvTaskError n m
         end]).
Proof.
  intros Hn. unfold call.
  destruct (reg !! n) as [t'|] eqn:E; [|done]. injection Hn as ->.
  unfold result, final, events. by destruct (t fs) as [[[[]|m] fs1] tr].
Qed.

Lemma call_writes (reg : gmap string Task) n t fs :
  reg !! n = Some t ->
  writes (events (call reg n fs)) = writes (events (t fs)) /\
  final (call reg n fs) = final (t fs).
Proof.
  intros Hn. rewrite (call_run reg n t fs Hn). split; [|done].
  unfold events at 1. cbn [snd].
  change (EvTaskStart n :: ?a ++ ?b) with ([EvTaskStart n] ++ a ++ b).
  rewrite !writes_app. destruct (result (t fs)); simpl; by rewrite app_nil_r.
Qed.

Lemma lands_call (reg : gmap string Task) n :
  (forall t, reg !! n = Some t -> lands t) -> lands (call reg n).
Proof.
  intros H fs p. destruct (reg !! n) as [t|] eqn:Hn.
  - destruct (call_writes reg n t fs Hn) as [-> ->]. by apply H.
  - unfold call, events. destruct (reg !! n) as [t'|] eqn:E; [done|].
    by intros ?%elem_of_nil.
Qed.

(** A parallel group, member by member. *)
Lemma parallel_cons (reg : gmap string Task) n rest fs :
  events (parallel reg (n :: rest) fs) =
    events (call reg n fs) ++ events (parallel reg rest (final (call reg n fs)))
  /\ final (parallel reg (n :: rest) fs) =
     final (parallel reg rest (final (call reg n fs)))
  /\ (result (parallel reg (n :: rest) fs) = Val tt ->
      result (call reg n fs) = Val tt /\
      result (parallel reg rest (final (call reg n fs))) = Val tt).
Proof.
  unfold parallel, events, final, result. simpl.
  destruct (call reg n fs) as [[r fs1] t1]. simpl.
  destruct (settle_all reg rest fs1) as [[errs fs2] t2].
  destruct r as [[]|m]; simpl; destruct errs; simpl; split_and!; done.
Qed.

Lemma parallel_nil (reg : gmap string Task) fs :
  parallel reg [] fs = (Val tt, fs, []).
Proof. reflexivity. Qed.

Lemma lands_parallel (reg : gmap string Task) names :
  (forall n t, reg !! n = Some t -> lands t) ->
  (forall n t, reg !! n = Some t -> keeps t) ->
  lands (parallel reg names).
Proof.
  intros L K. induction names as [|n rest IH]; [by apply lands_quiet|].
  intros fs p. destruct (parallel_cons reg n rest fs) as (-> & -> & _).
  rewrite writes_app. intros [Hp|Hp]%elem_of_app.
  - apply kept_is_Some; [by apply keeps_parallel|].
    apply lands_call in Hp; eauto.
  - by apply IH.
Qed.

Section Lands.
Context (T : Tools) (P : Process).

Lemma lands_gulp_src {A} globs (k : list Vinyl -> IO A) :
  (forall srcs, lands (k srcs)) -> lands (io_bind (gulp_src T globs) k).
Proof. intros H fs p. rewrite gulp_src_bind. apply H. Qed.

Lemma lands_compiler_run c : lands (compiler_run T c).
Proof.
  apply lands_bind; [by apply lands_quiet| |].
  - intros _ fs. destruct (webpack_compile T (options c) (files fs)).
    + by apply lands_throw.
    + apply lands_emit_assets.
  - intros _ fs. destruct (webpack_compile T (options c) (files fs)).
    + by apply keeps_throw.
    + apply keeps_emit_assets.
Qed.

Lemma lands_read_deps {A} (k : Deps -> IO A) :
  (forall deps, lands (k deps)) -> (forall deps, keeps (k deps)) ->
  lands (io_bind (read_deps T P) k).
Proof.
  intros L K. apply lands_bind; [|done|done].
  apply lands_quiet. intros fs. by rewrite read_deps_run.
Qed.

Lemma lands_buildMainHtml : lands (buildMainHtml T P).
Proof. apply lands_gulp_src. intros srcs. apply lands_gulp_dest. Qed.

Lemma lands_buildAppAssets : lands (buildAppAssets T P).
Proof. apply lands_gulp_src. intros srcs. apply lands_gulp_dest. Qed.

Lemma lands_buildDevAppConfig : lands (buildDevAppConfig T P).
Proof.
  unfold buildDevAppConfig. destruct (negb _); [apply lands_ret|].
  apply lands_try.
  - apply lands_bind.
    + apply lands_quiet. intros fs. unfold readFileSync, events.
      by destruct (files fs !! _).
    + intros raw. apply lands_bind.
      * apply lands_quiet. intros fs. by destruct (dotenv_parse T raw).
      * intros config. apply lands_writeFileSync.
      * intros config. apply keeps_writeFileSync.
    + intros raw. apply keeps_bind; [apply keeps_of_sum|].
      intros config. apply keeps_writeFileSync.
  - intros m. by apply lands_quiet.
  - intros m. by apply keeps_unchanged.
Qed.

Lemma lands_buildVendorStyles : lands (buildVendorStyles T P).
Proof.
  apply lands_read_deps; intros deps.
  - apply lands_gulp_src. intros srcs. apply lands_gulp_dest.
  - apply keeps_gulp_src. intros srcs. apply keeps_gulp_dest.
Qed.

Lemma lands_buildVendorFonts : lands (buildVendorFonts T P).
Proof.
  apply lands_read_deps; intros deps.
  - apply lands_gulp_src. intros srcs. apply lands_gulp_dest.
  - apply keeps_gulp_src. intros srcs. apply keeps_gulp_dest.
Qed.

Variable bas : Task.
Hypothesis lands_bas : lands bas.
Hypothesis keeps_bas : keeps bas.

Lemma lands_leaves n t : proGulp_leaves T P bas !! n = Some t -> lands t.
Proof.
  intros H. unfold proGulp_leaves in H. registry_cases H.
  - apply lands_buildVendorFonts.
  - apply lands_buildVendorStyles.
  - apply lands_buildDevAppConfig.
  - apply lands_buildAppAssets.
  - apply lands_bas.
  - apply lands_buildMainHtml.
Qed.

Lemma lands_build : lands (build T P bas).
Proof.
  apply lands_parallel; [apply lands_leaves | by apply keeps_leaves].
Qed.

Lemma lands_tasks n t : proGulp_tasks T P bas !! n = Some t -> lands t.
Proof.
  intros H. unfold proGulp_tasks in H.
  apply lookup_insert_Some in H as [[_ <-]|[_ H]].
  { apply lands_quiet. intros fs. unfold setupWatchers.
    rewrite gulp_watch_all_run. unfold events. simpl.
    generalize (watch_bindings P). intros l.
    induction l as [|[g b] l IH]; [done|]. simpl. exact IH. }
  apply lookup_insert_Some in H as [[_ <-]|[_ H]]; [by apply lands_quiet|].
  apply lookup_insert_Some in H as [[_ <-]|[_ H]].
  { apply lands_quiet. intros fs. by rewrite test_always_ends. }
  apply lookup_insert_Some in H as [[_ <-]|[_ H]]; [apply lands_build|].
  by eapply lands_leaves.
Qed.

End Lands.

(** * The layout, artifact by artifact *)


Lemma parallel_events (reg : gmap string Task) names fs :
  events (parallel reg names fs) = (settle_all reg names fs).2.
Proof.
  unfold parallel, events.
  by destruct (settle_all reg names fs) as [[[|m errs] fs1] t].
Qed.

Section Artifacts.
Context (T : Tools) (P : Process).




Variable deps : Deps.

Let buildAllScripts : Task :=
  promisify (compiler_run T (mkCompiler (webpackConfig P deps))).



End Artifacts.

(** ** A build, builder by builder *)


Lemma call_final (reg : gmap string Task) n t fs :
  reg !! n = Some t -> final (call reg n fs) = final (t fs).
Proof. intros Hn. by destruct (call_writes reg n t fs Hn). Qed.

Lemma call_written (reg : gmap string Task) n t fs :
  reg !! n = Some t -> writes (events (call reg n fs)) = writes (events (t fs)).
Proof. intros Hn. by destruct (call_writes reg n t fs Hn). Qed.

Lemma parallel_cons_writes (reg : gmap string Task) n t rest fs :
  reg !! n = Some t ->
  writes (events (parallel reg (n :: rest) fs)) =
    writes (events (t fs))
      ++ writes (events (parallel reg rest (final (t fs)))).
Proof.
  intros Hn. destruct (parallel_cons reg n rest fs) as (-> & _ & _).
  by rewrite writes_app, (call_written reg n t fs Hn),
    (call_final reg n t fs Hn).
Qed.

Lemma parallel_cons_final (reg : gmap string Task) n t rest fs :
  reg !! n = Some t ->
  final (parallel reg (n :: rest) fs) = final (parallel reg rest (final (t fs))).
Proof.
  intros Hn. destruct (parallel_cons reg n rest fs) as (_ & -> & _).
  by rewrite (call_final reg n t fs Hn).
Qed.



Section Stages.
Context (T : Tools) (P : Process).

Lemma leaves_lookup bas :
  proGulp_leaves T P bas !! "buildMainHtml" = Some (buildMainHtml T P) /\
  proGulp_leaves T P bas !! "buildAllScripts" = Some bas /\
  proGulp_leaves T P bas !! "buildAppAssets" = Some (buildAppAssets T P) /\
  proGulp_leaves T P bas !! "buildDevAppConfig" = Some (buildDevAppConfig T P) /\
  proGulp_leaves T P bas !! "buildVendorStyles" = Some (buildVendorStyles T P) /\
  proGulp_leaves T P bas !! "buildVendorFonts" = Some (buildVendorFonts T P).
Proof.
  unfold proGulp_leaves.
  split_and!; rewrite ?lookup_insert_ne by done; apply lookup_insert_eq.
Qed.


End Stages.

(** ** What each builder leaves *)

Section Left.
Context (T : Tools) (P : Process).









End Left.



(** * Rebuilds and the dev server *)

Section Rebuilds.
Context (T : Tools) (P : Process).
Variable deps : Deps.

Let buildAllScripts : Task :=
  promisify (compiler_run T (mkCompiler (webpackConfig P deps))).

Let tasks : gmap string Task := proGulp_tasks T P buildAllScripts.

Lemma tasks_leaf n :
  n <> "setupWatchers" -> n <> "setupDevServer" -> n <> "test" ->
  n <> "build" ->
  tasks !! n = proGulp_leaves T P buildAllScripts !! n.
Proof.
  intros H1 H2 H3 H4. unfold tasks, proGulp_tasks.
  by rewrite !lookup_insert_ne by done.
Qed.

(** The tasks the watchers are bound to are builders, or the test run. *)
Lemma bound_names globs bound n :
  (globs, bound) ∈ watch_bindings P ->
  n ∈ ref_names bound ->
  n ∈ ["buildMainHtml"; "buildAllScripts"; "buildAppAssets";
       "buildDevAppConfig"; "buildVendorStyles"; "buildVendorFonts"; "test"].
Proof.
  intros Hb Hn. unfold watch_bindings in Hb.
  repeat (apply elem_of_cons in Hb as [[= -> ->]|Hb]);
    [ | | | | | | by apply elem_of_nil in Hb ];
    simpl in Hn;
    repeat (apply elem_of_cons in Hn as [->|Hn]);
    try (by apply elem_of_nil in Hn);
    repeat (first [by left | right]).
Qed.

Lemma bound_leaf n :
  n ∈ ["buildMainHtml"; "buildAllScripts"; "buildAppAssets";
       "buildDevAppConfig"; "buildVendorStyles"; "buildVendorFonts"; "test"] ->
  exists t, tasks !! n = Some t /\ all_events (leaf_event (layout P)) t.
Proof.
  intros Hn.
  destruct (leaves_lookup T P buildAllScripts) as (L1 & L2 & L3 & L4 & L5 & L6).
  repeat (apply elem_of_cons in Hn as [->|Hn]);
    [ | | | | | | | by apply elem_of_nil in Hn ].
  1-6: eexists; split;
    [ rewrite tasks_leaf by done; eassumption
    | by eapply (leaves_layout T P deps) ].
  exists (test T P). split; [apply proGulp_tasks_test|].
  intros fs. rewrite test_always_ends. constructor.
Qed.

Lemma leaf_no_server W e : leaf_event W e -> no_server e.
Proof. by destruct e. Qed.

Lemma marker_no_server e : is_marker e -> no_server e.
Proof. by destruct e. Qed.

Lemma bound_call_quiet n fs :
  n ∈ ["buildMainHtml"; "buildAllScripts"; "buildAppAssets";
       "buildDevAppConfig"; "buildVendorStyles"; "buildVendorFonts"; "test"] ->
  Forall no_server (events (call tasks n fs)).
Proof.
  intros Hn. destruct (bound_leaf n Hn) as (t & Ht & Hl).
  revert fs. apply all_events_call; [apply marker_no_server|].
  intros t' Ht'. rewrite Ht in Ht'. injection Ht' as <-.
  eapply all_events_impl; [|exact Hl]. apply leaf_no_server.
Qed.

(** A rebuild runs the tasks its binding names and never starts a server. *)
Lemma rebuild_runs globs bound fs :
  (globs, bound) ∈ watch_bindings P ->
  started (events (run_ref tasks bound fs)) = ref_names bound /\
  servers (events (run_ref tasks bound fs)) = [].
Proof.
  intros Hb. pose proof (fun n => bound_names globs bound n Hb) as Hn.
  destruct bound as [name|names]; simpl in *.
  - assert (name ∈ [name]) as Hin by left.
    specialize (Hn name Hin). split.
    + destruct (bound_leaf name Hn) as (t & Ht & Hl).
      apply (call_started tasks name t fs Ht).
      eapply all_events_impl; [|exact Hl]. apply leaf_event_not_marker.
    + apply no_server_servers. by apply bound_call_quiet.
  - rewrite parallel_events. split.
    + apply settle_all_started. intros n Hin.
      destruct (bound_leaf n (Hn n Hin)) as (t & Ht & Hl).
      exists t. split; [done|].
      eapply all_events_impl; [|exact Hl]. apply leaf_event_not_marker.
    + apply no_server_servers, settle_all_calls.
      intros n fs' Hin. apply bound_call_quiet. by apply Hn.
Qed.

Lemma keeps_run_ref bound : keeps (run_ref tasks bound).
Proof.
  destruct bound as [name|names]; simpl.
  - apply keeps_call. intros t Ht.
    eapply keeps_tasks; [apply keeps_compiler_run | exact Ht].
  - apply keeps_parallel. intros n t Ht.
    eapply keeps_tasks; [apply keeps_compiler_run | exact Ht].
Qed.

Lemma lands_run_ref bound : lands (run_ref tasks bound).
Proof.
  assert (lands buildAllScripts) as Hl.
  { intros fs p. apply lands_compiler_run. }
  assert (keeps buildAllScripts) as Hk by apply keeps_compiler_run.
  destruct bound as [name|names]; simpl.
  - apply lands_call. intros t Ht. by eapply lands_tasks.
  - apply lands_parallel; intros n t Ht.
    + by eapply lands_tasks.
    + by eapply keeps_tasks.
Qed.

(** What a rebuild writes is there when it ends, where the server looks;
    and a rebuild changes no file that it does not write. *)
Lemma rebuild_seen bound fs :
  (forall p, p ∈ writes (events (run_ref tasks bound fs)) ->
     server_sees (browserSyncOptions P) p /\
     is_Some (files (final (run_ref tasks bound fs)) !! p)) /\
  (forall p, files (final (run_ref tasks bound fs)) !! p <> files fs !! p ->
     p ∈ writes (events (run_ref tasks bound fs))).
Proof.
  split.
  - intros p Hp. split.
    + exists (buildDir P). split; [done|].
      pose proof (bound_task_writes T P deps bound fs) as H.
      rewrite Forall_forall in H. by apply H.
    + by apply lands_run_ref.
  - intros p Hp.
    destruct (decide (p ∈ writes (events (run_ref tasks bound fs))))
      as [|Hn]; [done|].
    destruct (keeps_run_ref bound fs) as (K & _ & _). by apply K in Hn.
Qed.

Lemma rebuild_scripts fs :
  writes (events (run_ref tasks (ProGulpParallel ["buildAllScripts"; "test"]) fs))
  = writes (events (buildAllScripts fs)) /\
  final (run_ref tasks (ProGulpParallel ["buildAllScripts"; "test"]) fs)
  = final (buildAllScripts fs).
Proof.
  simpl. split.
  - rewrite (parallel_cons_writes _ _ _ _ fs
               (proGulp_tasks_buildAllScripts T P buildAllScripts)).
    rewrite (parallel_cons_writes _ _ _ _ _
               (proGulp_tasks_test T P buildAllScripts)).
    rewrite test_always_ends, parallel_nil. by rewrite app_nil_r.
  - rewrite (parallel_cons_final _ _ _ _ fs
               (proGulp_tasks_buildAllScripts T P buildAllScripts)).
    rewrite (parallel_cons_final _ _ _ _ _
               (proGulp_tasks_test T P buildAllScripts)).
    by rewrite test_always_ends, parallel_nil.
Qed.

Lemma rebuild_vendor fs :
  let fsA := final (buildAllScripts fs) in
  let fsB := final (buildVendorFonts T P fsA) in
  writes (events (run_ref tasks
            (ProGulpParallel ["buildAllScripts"; "buildVendorFonts";
                              "buildVendorStyles"; "test"]) fs))
  = writes (events (buildAllScripts fs)) ++
    writes (events (buildVendorFonts T P fsA)) ++
    writes (events (buildVendorStyles T P fsB)) /\
  final (run_ref tasks
           (ProGulpParallel ["buildAllScripts"; "buildVendorFonts";
                             "buildVendorStyles"; "test"]) fs)
  = final (buildVendorStyles T P fsB).
Proof.
  intros fsA fsB.
  destruct (leaves_lookup T P buildAllScripts) as (_ & _ & _ & _ & L5 & L6).
  rewrite <- tasks_leaf in L5, L6 by done.
  simpl. split.
  - rewrite (parallel_cons_writes _ _ _ _ fs
               (proGulp_tasks_buildAllScripts T P buildAllScripts)).
    rewrite (parallel_cons_writes _ _ _ _ fsA L6).
    rewrite (parallel_cons_writes _ _ _ _ fsB L5).
    rewrite (parallel_cons_writes _ _ _ _ _
               (proGulp_tasks_test T P buildAllScripts)).
    rewrite test_always_ends, parallel_nil. by rewrite !app_nil_r.
  - rewrite (parallel_cons_final _ _ _ _ fs
               (proGulp_tasks_buildAllScripts T P buildAllScripts)).
    rewrite (parallel_cons_final _ _ _ _ fsA L6).
    rewrite (parallel_cons_final _ _ _ _ fsB L5).
    rewrite (parallel_cons_final _ _ _ _ _
               (proGulp_tasks_test T P buildAllScripts)).
    by rewrite test_always_ends, parallel_nil.
Qed.

Lemma rebuild_test fs :
  run_ref tasks (ProGulpTask "test") fs
  = (Val tt, fs, [EvTaskStart "test"; EvTaskEnd "test"]).
Proof.
  simpl. unfold tasks.
  rewrite (call_run _ _ _ fs (proGulp_tasks_test T P buildAllScripts)).
  by rewrite test_always_ends.
Qed.

Lemma rebuild_config_elsewhere fs :
  NODE_ENV P <> "development" ->
  run_ref tasks (ProGulpTask "buildDevAppConfig") fs
  = (Val tt, fs, [EvTaskStart "buildDevAppConfig";
                  EvTaskEnd "buildDevAppConfig"]).
Proof.
  intros Hmode. simpl.
  destruct (leaves_lookup T P buildAllScripts) as (_ & _ & _ & L4 & _ & _).
  rewrite <- tasks_leaf in L4 by done.
  rewrite (call_run _ _ _ fs L4).
  unfold buildDevAppConfig. by rewrite other_mode.
Qed.

End Rebuilds.

(** C7, as stated, fails: a rebuild can succeed with nothing for the server
    to see.  The watcher of the test sources is bound to [test]; run on the
    loaded sample project the rebuild succeeds, writes nothing and leaves
    the file system as it was.  In production mode the same holds of the
    watcher of the environment file, bound to [buildDevAppConfig].  Neither
    trace holds a call of the server. *)
Lemma C7_counterexample :
  watch_bindings Sample.proc !! 4%nat
  = Some (["/proj/test/**/*.jsx"; "/proj/test/**/*.js"], ProGulpTask "test") /\
  run_ref (proGulp_tasks Sample.tools Sample.proc Sample.buildAllScripts)
          (ProGulpTask "test") Sample.loaded
  = (Val tt, Sample.loaded, [EvTaskStart "test"; EvTaskEnd "test"]) /\
  watch_bindings Sample.production !! 1%nat
  = Some (["/proj/app/.env"], ProGulpTask "buildDevAppConfig") /\
  run_ref (proGulp_tasks Sample.tools Sample.production
             (promisify (compiler_run Sample.tools
                (mkCompiler (webpackConfig Sample.production Sample.deps)))))
          (ProGulpTask "buildDevAppConfig") Sample.loaded
  = (Val tt, Sample.loaded,
     [EvTaskStart "buildDevAppConfig"; EvTaskEnd "buildDevAppConfig"]).
Proof. vm_compute. done. Qed.

(** C7, amended: in the [dev] task the dev server is started only after the
    initial build has completed, and then exactly once: when the build fails
    the server is never started; when it succeeds the trace holds one start
    of the server, preceded by the end of the build.  After that the
    gulpfile never calls the server again: the server is told to watch every
    file below the build directory, and a rebuild reaches it only through
    the files it writes.  A rebuild runs the tasks its watch binding names,
    in their order; whatever it writes is below the build directory, where
    the server looks, and is there when the rebuild ends; and it changes no
    file that it does not write.  What is written is what the bound tasks
    write: a single bound task writes what the task writes, the watcher of
    the application scripts what [buildAllScripts] writes, the watcher of
    the manifest what [buildAllScripts], [buildVendorFonts] and
    [buildVendorStyles] write one after another.  A rebuild that writes
    nothing gives the server nothing to see: the run of the tests never
    writes, and outside development mode neither does the rebuild of the
    configuration. *)
Theorem C7_server_after_build (T : Tools) (P : Process) (fs0 fs1 : FS)
    (bas : Task) (t0 : list IOEvent) :
  buildAllScripts_iife T P fs0 = (Val bas, fs1, t0) ->
  forall fs,
    (forall m, result (build T P bas fs) = Throw m ->
       servers (events (dev T P bas fs)) = []) /\
    (result (build T P bas fs) = Val tt ->
       servers (events (dev T P bas fs)) = [browserSyncOptions P] /\
       exists pre post,
         events (dev T P bas fs)
           = pre ++ EvBrowserSync (browserSyncOptions P) :: post /\
         EvTaskEnd "build" ∈ pre /\
         servers pre = [] /\ servers post = []) /\
    bs_files (browserSyncOptions P) = buildDir P +:+ "/**/*" /\
    (forall globs bound fs',
       (globs, bound) ∈ watch_bindings P ->
       let rebuild := run_ref (proGulp_tasks T P bas) bound fs' in
       started (events rebuild) = ref_names bound /\
       servers (events rebuild) = [] /\
       (forall p, p ∈ writes (events rebuild) ->
          server_sees (browserSyncOptions P) p /\
          is_Some (files (final rebuild) !! p)) /\
       (forall p, files (final rebuild) !! p <> files fs' !! p ->
          p ∈ writes (events rebuild))) /\
    (forall n t fs',
       proGulp_tasks T P bas !! n = Some t ->
       let rebuild := run_ref (proGulp_tasks T P bas) (ProGulpTask n) fs' in
       writes (events rebuild) = writes (events (t fs')) /\
       final rebuild = final (t fs')) /\
    (forall fs',
       let rebuild := run_ref (proGulp_tasks T P bas)
                        (ProGulpParallel ["buildAllScripts"; "test"]) fs' in
       writes (events rebuild) = writes (events (bas fs')) /\
       final rebuild = final (bas fs')) /\
    (forall fs',
       let rebuild := run_ref (proGulp_tasks T P bas)
                        (ProGulpParallel ["buildAllScripts"; "buildVendorFonts";
                                          "buildVendorStyles"; "test"]) fs' in
       let fsA := final (bas fs') in
       let fsB := final (buildVendorFonts T P fsA) in
       writes (events rebuild) =
         writes (events (bas fs')) ++
         writes (events (buildVendorFonts T P fsA)) ++
         writes (events (buildVendorStyles T P fsB)) /\
       final rebuild = final (buildVendorStyles T P fsB)) /\
    (forall fs',
       run_ref (proGulp_tasks T P bas) (ProGulpTask "test") fs'
       = (Val tt, fs', [EvTaskStart "test"; EvTaskEnd "test"])) /\
    (NODE_ENV P <> "development" ->
     forall fs',
       run_ref (proGulp_tasks T P bas) (ProGulpTask "buildDevAppConfig") fs'
       = (Val tt, fs', [EvTaskStart "buildDevAppConfig";
                        EvTaskEnd "buildDevAppConfig"])).
Proof.
  intros (raw & deps & _ & _ & -> & _ & _)%iife_value fs.
  pose proof (build_no_server T P deps fs) as Hb.
  set (bas := promisify _) in *.
  split_and!.
  - intros m Hm. rewrite dev_run. unfold result, events in *.
    destruct (build T P bas fs) as [[[[]|m'] fsb] tb]; [done|].
    cbn [fst snd] in *.
    by rewrite servers_cons, servers_app, Hb.
  - intros Hok. rewrite dev_run. unfold result, events in *.
    destruct (build T P bas fs) as [[[[]|m'] fsb] tb]; [|done].
    cbn [fst snd] in *. split; [by apply servers_dev_trace|].
    exists ((EvTaskStart "build" :: tb ++ [EvTaskEnd "build"])
            ++ [EvTaskStart "test"; EvTaskEnd "test";
                EvTaskStart "setupDevServer"]),
           ([EvTaskEnd "setupDevServer"; EvTaskStart "setupWatchers"]
            ++ map (fun b => EvWatch b.1 b.2) (watch_bindings P)
            ++ [EvTaskEnd "setupWatchers"]).
    split; [|split; [|split]].
    + unfold dev_trace. by rewrite <- !app_assoc.
    + apply elem_of_app. left. right. apply elem_of_app. right. by left.
    + by rewrite servers_app, servers_cons, servers_app, Hb.
    + by rewrite servers_app, servers_app, servers_watch.
  - done.
  - intros globs bound fs' Hin rebuild.
    destruct (rebuild_runs T P deps globs bound fs' Hin) as [Hs Hq].
    destruct (rebuild_seen T P deps bound fs') as [Hw Hc].
    done.
  - intros n t fs' Hn rebuild. by apply call_writes.
  - intros fs'. apply (rebuild_scripts T P deps).
  - intros fs'. apply (rebuild_vendor T P deps).
  - intros fs'. apply (rebuild_test T P deps).
  - intros Hmode fs'. by apply (rebuild_config_elsewhere T P deps).
Qed.

Lemma C7_server_after_build_witness :
  servers (events (dev Sample.tools Sample.proc Sample.buildAllScripts
                       Sample.loaded))
  = [browserSyncOptions Sample.proc] /\
  run_ref (proGulp_tasks Sample.tools Sample.production
             (promisify (compiler_run Sample.tools
                (mkCompiler (webpackConfig Sample.production Sample.deps)))))
          (ProGulpTask "buildDevAppConfig") Sample.loaded
  = (Val tt, Sample.loaded,
     [EvTaskStart "buildDevAppConfig"; EvTaskEnd "buildDevAppConfig"]).
Proof.
  split.
  - destruct (C7_server_after_build Sample.tools Sample.proc Sample.project
                Sample.loaded Sample.buildAllScripts
                (events (buildAllScripts_iife Sample.tools Sample.proc
                           Sample.project))
                eq_refl Sample.loaded) as (_ & H & _).
    apply H. by vm_compute.
  - destruct (C7_server_after_build Sample.tools Sample.production
                Sample.project Sample.loaded
                (promisify (compiler_run Sample.tools
                   (mkCompiler (webpackConfig Sample.production Sample.deps))))
                (events (buildAllScripts_iife Sample.tools Sample.production
                           Sample.project))
                eq_refl Sample.loaded) as (_ & _ & _ & _ & _ & _ & _ & _ & H).
    apply H. by vm_compute.
Defined.
